(** * Consul service discovery: API configuration and blocking queries

    A shallow embedding of [lib/promscrape/discovery/consul/api.go]:
    the token resolver [getToken], the datacenter resolver [getDatacenter],
    the config builder [newAPIConfig], the wait-time calculator
    [maxWaitTime] and the blocking query executor
    [getBlockingAPIResponse] with its header callback [getMeta].

    Go values are modelled as follows: [int64] and [time.Duration] are [Z]
    with the two's complement wrap-around written out, [string] and
    [[]byte] are [string], a [*string] is an [option string], a Go
    [(T, error)] result is a [result T], and [float64] is a binary64
    [spec_float]. Calls that leave the package (environment, file system,
    auth and HTTP client constructors, the HTTP client itself, the logger,
    the watcher constructor) are recorded in a trace of [Event]s. *)

From Stdlib Require Import ZArith String Ascii List Bool Lia SpecFloat.
Import ListNotations.

Local Open Scope string_scope.
Local Open Scope Z_scope.

(** ** Machine integers *)

Module Int64.
Definition min_int : Z := - 2 ^ 63.
Definition max_int : Z := 2 ^ 63 - 1.

(** Two's complement reduction of an integer to 64 bits. *)
Definition wrap (z : Z) : Z := (z + 2 ^ 63) mod 2 ^ 64 - 2 ^ 63.

Definition in_range (z : Z) : Prop := min_int <= z <= max_int.

Definition sub (a b : Z) : Z := wrap (a - b).
(** Go's [/] on integers truncates toward zero. *)
Definition div (a b : Z) : Z := wrap (Z.quot a b).
(** Go's [%] takes the sign of the dividend. *)
Definition rem (a b : Z) : Z := wrap (Z.rem a b).
Definition mul (a b : Z) : Z := wrap (a * b).
End Int64.

(** ** Package [time] *)

Module time.
Definition Duration := Z.
Definition Nanosecond : Duration := 1.
Definition Microsecond : Duration := 1000 * Nanosecond.
Definition Millisecond : Duration := 1000 * Microsecond.
Definition Second : Duration := 1000 * Millisecond.
Definition Minute : Duration := 60 * Second.
End time.

(** ** binary64 arithmetic used by [Duration.Seconds] *)

Module Float64.
Definition prec : Z := 53.
Definition emax : Z := 1024.

Definition add : spec_float -> spec_float -> spec_float := SFadd prec emax.
Definition div : spec_float -> spec_float -> spec_float := SFdiv prec emax.

(** The conversion [float64(z)] of an integer, rounding to nearest even. *)
Definition of_int (z : Z) : spec_float := binary_normalize prec emax z 0 false.

(** The conversion [int(f)] of a finite float: the fraction is dropped
    (truncation toward zero). Go leaves the result unspecified when the
    value is not finite; 0 is used here. *)
Definition to_int (f : spec_float) : Z :=
  match f with
  | S754_finite s m e =>
      let a := match e with
               | Zneg p => Z.shiftr (Zpos m) (Zpos p)
               | _ => Z.shiftl (Zpos m) e
               end in
      Int64.wrap (if s then - a else a)
  | _ => 0
  end.

(** The constant [1e9]. *)
Definition f1e9 : spec_float := of_int 1000000000.
End Float64.

(** [func (d Duration) Seconds() float64]:
<<
      sec := d / Second
      nsec := d % Second
      return float64(sec) + float64(nsec)/1e9
>> *)
Definition Seconds (d : time.Duration) : spec_float :=
  let sec := Int64.div d time.Second in
  let nsec := Int64.rem d time.Second in
  Float64.add (Float64.of_int sec) (Float64.div (Float64.of_int nsec) Float64.f1e9).

(** ** Package [strconv], base 10 and 64 bits *)

Module strconv.
Inductive NumError := ErrSyntax | ErrRange.

Definition maxUint64 : Z := 2 ^ 64 - 1.

Definition byte_of (c : ascii) : Z := Z.of_N (N_of_ascii c).

(** [lower(c) = c | ('x' - 'X')] *)
Definition lower (c : Z) : Z := Z.lor c 32.

(** The value of one character of the number, as the [switch] of
    [ParseUint] computes it, for a base that is not 0. *)
Definition digit_val (c : ascii) : option Z :=
  let b := byte_of c in
  if (48 <=? b) && (b <=? 57) then Some (b - 48)
  else if (97 <=? lower b) && (lower b <=? 122) then Some (lower b - 97 + 10)
  else None.

(** The loop of [ParseUint(s, 10, 64)] over the remaining characters,
    with [n] the number read so far. *)
Fixpoint parse_loop (s : string) (n : Z) : Z * option NumError :=
  match s with
  | EmptyString => (n, None)
  | String c rest =>
      match digit_val c with
      | None => (0, Some ErrSyntax)
      | Some d =>
          if 10 <=? d then (0, Some ErrSyntax)
          else if (maxUint64 / 10 + 1) <=? n then (maxUint64, Some ErrRange)
          else
            let n10 := n * 10 in
            let n1 := (n10 + d) mod 2 ^ 64 in
            if (n1 <? n10) || (maxUint64 <? n1) then (maxUint64, Some ErrRange)
            else parse_loop rest n1
      end
  end.

Definition ParseUint (s : string) : Z * option NumError :=
  match s with
  | EmptyString => (0, Some ErrSyntax)
  | _ => parse_loop s 0
  end.

(** [ParseInt(s, 10, 64)]: an optional sign, then [ParseUint], then the
    range check against [1 << 63]. *)
Definition ParseInt (s : string) : Z * option NumError :=
  match s with
  | EmptyString => (0, Some ErrSyntax)
  | String c0 rest =>
      let neg := Ascii.eqb c0 "-" in
      let s' := if Ascii.eqb c0 "+" then rest else if neg then rest else s in
      let cutoff := 2 ^ 63 in
      match ParseUint s' with
      | (_, Some ErrSyntax) => (0, Some ErrSyntax)
      | (un, _) =>
          if negb neg && (cutoff <=? un) then (cutoff - 1, Some ErrRange)
          else if neg && (cutoff <? un) then (- cutoff, Some ErrRange)
          else (if neg then Int64.wrap (- Int64.wrap un) else Int64.wrap un, None)
      end
  end.

Definition digit_char (d : Z) : ascii := ascii_of_N (Z.to_N (48 + d)).

(** The digit loop of [formatBits]: the decimal digits of [u] are put in
    front of [acc], the least significant one first. *)
Fixpoint format_loop (fuel : nat) (u : Z) (acc : string) : string :=
  match fuel with
  | O => acc
  | S fuel' =>
      if u <? 10 then String (digit_char u) acc
      else format_loop fuel' (u / 10) (String (digit_char (u mod 10)) acc)
  end.

(** An unsigned 64-bit number has at most 20 decimal digits. *)
Definition FormatUint (u : Z) : string := format_loop 20 u "".

(** [FormatInt(i, 10)], which is also what the verb [%d] prints. *)
Definition FormatInt (i : Z) : string :=
  if i <? 0 then String "-" (FormatUint (- i)) else FormatUint i.
End strconv.

(** ** Package [strings] *)

Module strings.
Fixpoint HasPrefix (s prefix : string) : bool :=
  match prefix, s with
  | EmptyString, _ => true
  | String p prefix', String c s' => Ascii.eqb c p && HasPrefix s' prefix'
  | String _ _, EmptyString => false
  end.

Fixpoint Contains (s substr : string) : bool :=
  HasPrefix s substr ||
  match s with
  | EmptyString => false
  | String _ s' => Contains s' substr
  end.
End strings.

(** ** Errors and results *)

(** A Go [error]. [Errorf] keeps the format string and the arguments of a
    [fmt.Errorf] call; a [%w] argument is the wrapped error. *)
Inductive error : Type :=
| External (msg : string)
| NumError (func num : string) (e : strconv.NumError)
| Errorf (format : string) (args : list fmt_arg)
with fmt_arg : Type :=
| ArgString (s : string)
| ArgError (e : error).

(** A Go pair [(T, error)] in which exactly one side is meaningful. *)
Inductive result (A : Type) : Type :=
| Ok (a : A)
| Err (e : error).
Arguments Ok {A} a.
Arguments Err {A} e.

Definition is_err {A : Type} (r : result A) : bool :=
  match r with Ok _ => false | Err _ => true end.

(** [promauth.BasicAuthConfig] *)
Record BasicAuthConfig : Type := {
  ba_Username : string;
  ba_Password : string
}.

(** Types of other packages, opaque to this package. *)
Record Foreign : Type := {
  TLSConfig : Type;
  ProxyClientConfig : Type;
  ProxyURL : Type;
  AuthConfig : Type;
  ProxyAuthConfig : Type;
  Client : Type;
  Response : Type;
  consulWatcher : Type
}.

Section Consul.

Variable F : Foreign.

(** Modelled from the spec: the configuration descriptor [SDConfig] is
    declared in another file of the package; these are the fields that
    [api.go] reads, with the types its uses of them require ([Token] and
    [TagSeparator] are compared with [nil] and dereferenced). *)
Record SDConfig : Type := {
  Server : string;
  Token : option string;
  Datacenter : string;
  Scheme : string;
  Username : string;
  Password : string;
  sdcProxyURL : ProxyURL F;
  sdcProxyClientConfig : ProxyClientConfig F;
  sdcTLSConfig : option (TLSConfig F);
  TagSeparator : option string
}.

(** [apiConfig] contains config for API server. *)
Record apiConfig : Type := {
  tagSeparator : string;
  consulWatcherOf : consulWatcher F
}.

(** [Agent], as far as [getDatacenter] reads it: [a.Config.Datacenter]. *)
Record Agent : Type := {
  Config_Datacenter : string
}.

(** *** The world outside the package

    Each field stands for a function or variable of another package (or of
    another file of this one) that [api.go] calls or reads.
    - [Getenv] is [os.Getenv]: the value of a variable, empty when unset;
    - [ReadFile] is [ioutil.ReadFile];
    - [promauth_NewConfig baseDir ba token tls] is
      [promauth.NewConfig(baseDir, nil, ba, token, "", nil, tls)];
    - [ProxyClientConfig_NewConfig pcc baseDir] is [pcc.NewConfig(baseDir)];
    - [discoveryutils_NewClient] is [discoveryutils.NewClient];
    - [Client_GetAPIResponse] is [client.GetAPIResponse(path)];
    - [Client_GetBlockingAPIResponse client path] is
      [client.GetBlockingAPIResponse(path, inspectResponse)]: the responses
      the client hands to the callback, in order, and what the call returns
      (the callback returns nothing, so the client's behaviour does not
      depend on it);
    - [Header_Peek resp key] is [resp.Header.Peek(key)], empty when the
      header is absent;
    - [parseAgent] is declared in another file of the package;
    - [newConsulWatcher] likewise;
    - [BlockingClientReadTimeout] is the variable of that name in
      [discoveryutils];
    - [waitTime] is the value of the flag [-promscrape.consul.waitTime]. *)
Record World : Type := {
  Getenv : string -> string;
  ReadFile : string -> result string;
  promauth_NewConfig :
    string -> option BasicAuthConfig -> string -> option (TLSConfig F) -> result (AuthConfig F);
  ProxyClientConfig_NewConfig : ProxyClientConfig F -> string -> result (ProxyAuthConfig F);
  discoveryutils_NewClient :
    string -> AuthConfig F -> ProxyURL F -> ProxyAuthConfig F -> result (Client F);
  Client_GetAPIResponse : Client F -> string -> result string;
  Client_GetBlockingAPIResponse : Client F -> string -> list (Response F) * result string;
  Header_Peek : Response F -> string -> string;
  parseAgent : string -> result Agent;
  newConsulWatcher : Client F -> SDConfig -> string -> consulWatcher F;
  BlockingClientReadTimeout : time.Duration;
  waitTime : time.Duration
}.

Variable W : World.

(** *** Observable actions *)

Inductive Event : Type :=
| EvGetenv (name : string)
| EvReadFile (path : string)
| EvAuthNewConfig (baseDir : string) (ba : option BasicAuthConfig) (token : string)
                  (tls : option (TLSConfig F))
| EvProxyNewConfig (pcc : ProxyClientConfig F) (baseDir : string)
| EvNewClient (apiServer : string) (ac : AuthConfig F) (proxyURL : ProxyURL F)
              (proxyAC : ProxyAuthConfig F)
| EvGetAPIResponse (client : Client F) (path : string)
| EvGetBlockingAPIResponse (client : Client F) (path : string)
| EvNewConsulWatcher (client : Client F) (sdc : SDConfig) (dc : string)
| EvLogErrorf (format : string) (args : list fmt_arg).

(** A computation that performs actions and yields a value. *)
Definition M (A : Type) : Type := (list Event * A)%type.

Definition ret {A : Type} (a : A) : M A := ([], a).

Definition bind {A B : Type} (m : M A) (k : A -> M B) : M B :=
  let (t1, a) := m in
  let (t2, b) := k a in
  ((t1 ++ t2)%list, b).

Definition act {A : Type} (e : Event) (a : A) : M A := ([e], a).

Definition trace {A : Type} (m : M A) : list Event := fst m.
Definition value {A : Type} (m : M A) : A := snd m.

Notation "x <- m ;; k" := (bind m (fun x => k))
  (at level 61, m at next level, right associativity).
Notation "m ;;; k" := (bind m (fun _ => k))
  (at level 61, right associativity).

(** *** [getToken] *)

Definition getToken (token : option string) : M (result string) :=
  match token with
  | Some t => ret (Ok t)
  | None =>
      tokenFile <- act (EvGetenv "CONSUL_HTTP_TOKEN_FILE") (Getenv W "CONSUL_HTTP_TOKEN_FILE") ;;
      if negb (String.eqb tokenFile "") then
        r <- act (EvReadFile tokenFile) (ReadFile W tokenFile) ;;
        match r with
        | Err err =>
            ret (Err (Errorf
              "cannot read consul token file %q; probably, `token` arg is missing in `consul_sd_config`? error: %w"
              [ArgString tokenFile; ArgError err]))
        | Ok data => ret (Ok data)
        end
      else
        t <- act (EvGetenv "CONSUL_HTTP_TOKEN") (Getenv W "CONSUL_HTTP_TOKEN") ;;
        ret (Ok t)
  end.

(** *** [getDatacenter] *)

Definition getDatacenter (client : Client F) (dc : string) : M (result string) :=
  if negb (String.eqb dc "") then ret (Ok dc)
  else
    r <- act (EvGetAPIResponse client "/v1/agent/self")
             (Client_GetAPIResponse W client "/v1/agent/self") ;;
    match r with
    | Err err => ret (Err (Errorf "cannot query consul agent info: %w" [ArgError err]))
    | Ok data =>
        match parseAgent W data with
        | Err err => ret (Err err)
        | Ok a => ret (Ok (Config_Datacenter a))
        end
    end.

(** *** [newAPIConfig] *)

Definition newAPIConfig (sdc : SDConfig) (baseDir : string) : M (result apiConfig) :=
  r <- getToken (Token sdc) ;;
  match r with
  | Err err => ret (Err err)
  | Ok token =>
  let '(ba, token) :=
    if 0 <? Z.of_nat (String.length (Username sdc)) then
      (Some {| ba_Username := Username sdc; ba_Password := Password sdc |}, "")
    else (None, token) in
  r <- act (EvAuthNewConfig baseDir ba token (sdcTLSConfig sdc))
           (promauth_NewConfig W baseDir ba token (sdcTLSConfig sdc)) ;;
  match r with
  | Err err => ret (Err (Errorf "cannot parse auth config: %w" [ArgError err]))
  | Ok ac =>
  let apiServer := Server sdc in
  let apiServer := if String.eqb apiServer "" then "localhost:8500" else apiServer in
  let apiServer :=
    if negb (strings.Contains apiServer "://") then
      let scheme := Scheme sdc in
      let scheme := if String.eqb scheme "" then "http" else scheme in
      (scheme ++ "://" ++ apiServer)%string
    else apiServer in
  r <- act (EvProxyNewConfig (sdcProxyClientConfig sdc) baseDir)
           (ProxyClientConfig_NewConfig W (sdcProxyClientConfig sdc) baseDir) ;;
  match r with
  | Err err => ret (Err (Errorf "cannot parse proxy auth config: %w" [ArgError err]))
  | Ok proxyAC =>
  r <- act (EvNewClient apiServer ac (sdcProxyURL sdc) proxyAC)
           (discoveryutils_NewClient W apiServer ac (sdcProxyURL sdc) proxyAC) ;;
  match r with
  | Err err =>
      ret (Err (Errorf "cannot create HTTP client for %q: %w"
                       [ArgString apiServer; ArgError err]))
  | Ok client =>
  let tagSeparator := "," in
  let tagSeparator :=
    match TagSeparator sdc with
    | Some sep => sep
    | None => tagSeparator
    end in
  r <- getDatacenter client (Datacenter sdc) ;;
  match r with
  | Err err => ret (Err err)
  | Ok dc =>
  cw <- act (EvNewConsulWatcher client sdc dc) (newConsulWatcher W client sdc dc) ;;
  let cfg := {| tagSeparator := tagSeparator; consulWatcherOf := cw |} in
  ret (Ok cfg)
  end end end end end.

(** *** [maxWaitTime] *)

(** [maxWaitTime] is duration for consul blocking request. *)
Definition maxWaitTime : time.Duration :=
  let d := BlockingClientReadTimeout W in
  let d := Int64.sub d (Int64.div d 8) in
  let d := if Int64.mul 10 time.Minute <? d then Int64.mul 10 time.Minute else d in
  let d := if (time.Second <? waitTime W) && (waitTime W <? d) then waitTime W else d in
  d.

(** *** [getBlockingAPIResponse] *)

(** The callback [getMeta]: [path] is the request path it closes over,
    [index] the captured variable before the call; the result is the
    variable after it. *)
Definition getMeta (path : string) (resp : Response F) (index : Z) : M Z :=
  let ind := Header_Peek W resp "X-Consul-Index" in
  if Z.of_nat (String.length ind) =? 0 then
    act (EvLogErrorf "cannot find X-Consul-Index header in response from %q"
                     [ArgString path]) tt ;;;
    ret index
  else
    match strconv.ParseInt ind with
    | (_, Some err) =>
        act (EvLogErrorf "cannot parse X-Consul-Index header value in response from %q: %s"
                         [ArgString path; ArgError (NumError "ParseInt" ind err)]) tt ;;;
        ret index
    | (newIndex, None) =>
        if newIndex <? 1 then ret 1
        else if index >? newIndex then ret 0
        else ret newIndex
    end.

(** The callback applied to each response the client inspects. *)
Fixpoint inspect (path : string) (resps : list (Response F)) (index : Z) : M Z :=
  match resps with
  | [] => ret index
  | resp :: rest =>
      index <- getMeta path resp index ;;
      inspect path rest index
  end.

(** The variable [path] after the two [path += ...] statements that open
    [getBlockingAPIResponse]. *)
Definition requestPath (path : string) (index : Z) : string :=
  let path := (path ++ ("&index=" ++ strconv.FormatInt index))%string in
  let path := (path ++ ("&wait="
                 ++ (strconv.FormatInt (Float64.to_int (Seconds maxWaitTime)) ++ "s")))%string in
  path.

(** [getBlockingAPIResponse] perfoms blocking request to Consul via client
    and returns response: the data, the index and the error. *)
Definition getBlockingAPIResponse (client : Client F) (path : string) (index : Z)
  : M (string * Z * option error) :=
  let path := requestPath path index in
  let '(resps, r) := Client_GetBlockingAPIResponse W client path in
  act (EvGetBlockingAPIResponse client path) tt ;;;
  index <- inspect path resps index ;;
  match r with
  | Err err =>
      ret ("", index,
           Some (Errorf "cannot perform blocking Consul API request at %q: %w"
                        [ArgString path; ArgError err]))
  | Ok data => ret (data, index, None)
  end.

End Consul.

Arguments Server {F} _.
Arguments Token {F} _.
Arguments Datacenter {F} _.
Arguments Scheme {F} _.
Arguments Username {F} _.
Arguments Password {F} _.
Arguments sdcProxyURL {F} _.
Arguments sdcProxyClientConfig {F} _.
Arguments sdcTLSConfig {F} _.
Arguments TagSeparator {F} _.
Arguments tagSeparator {F} _.
Arguments consulWatcherOf {F} _.
Arguments Getenv {F} _ _.
Arguments ReadFile {F} _ _.
Arguments promauth_NewConfig {F} _ _ _ _ _.
Arguments ProxyClientConfig_NewConfig {F} _ _ _.
Arguments discoveryutils_NewClient {F} _ _ _ _ _.
Arguments Client_GetAPIResponse {F} _ _ _.
Arguments Client_GetBlockingAPIResponse {F} _ _ _.
Arguments Header_Peek {F} _ _ _.
Arguments parseAgent {F} _ _.
Arguments newConsulWatcher {F} _ _ _ _.
Arguments BlockingClientReadTimeout {F} _.
Arguments waitTime {F} _.
Arguments EvGetenv {F} name.
Arguments EvReadFile {F} path.
Arguments EvAuthNewConfig {F} baseDir ba token tls.
Arguments EvProxyNewConfig {F} pcc baseDir.
Arguments EvNewClient {F} apiServer ac proxyURL proxyAC.
Arguments EvGetAPIResponse {F} client path.
Arguments EvGetBlockingAPIResponse {F} client path.
Arguments EvNewConsulWatcher {F} client sdc dc.
Arguments EvLogErrorf {F} format args.
Arguments trace {F A} m.
Arguments value {F A} m.
Arguments getToken {F} W token.
Arguments getDatacenter {F} W client dc.
Arguments newAPIConfig {F} W sdc baseDir.
Arguments maxWaitTime {F} W.
Arguments getMeta {F} W path resp index.
Arguments inspect {F} W path resps index.
Arguments requestPath {F} W path index.
Arguments getBlockingAPIResponse {F} W client path index.

(** ** What the statements below speak about *)

(** The error [e] names [p]: [p] is an argument of the [fmt.Errorf] call
    that made it. *)
Definition names_path (e : error) (p : string) : Prop :=
  match e with
  | Errorf _ args => In (ArgString p) args
  | _ => False
  end.

(** Number of requests to the agent's self-describe endpoint in a trace. *)
Fixpoint selfDescribeRequests {F : Foreign} (t : list (Event F)) : nat :=
  match t with
  | [] => O
  | EvGetAPIResponse _ path :: t' =>
      if String.eqb path "/v1/agent/self" then S (selfDescribeRequests t')
      else selfDescribeRequests t'
  | _ :: t' => selfDescribeRequests t'
  end.

(** Number of watchers created in a trace. *)
Fixpoint watchersCreated {F : Foreign} (t : list (Event F)) : nat :=
  match t with
  | [] => O
  | EvNewConsulWatcher _ _ _ :: t' => S (watchersCreated t')
  | _ :: t' => watchersCreated t'
  end.

(** The scheme [newAPIConfig] puts in front of an address that has none. *)
Definition schemeOrHTTP {F : Foreign} (sdc : SDConfig F) : string :=
  if String.eqb (Scheme sdc) "" then "http" else Scheme sdc.

(** The freshness header of a response is an anomaly when it is absent
    (empty) or [strconv.ParseInt] rejects it. *)
Definition anomalous {F : Foreign} (W : World F) (resp : Response F) : Prop :=
  let ind := Header_Peek W resp "X-Consul-Index" in
  ind = "" \/ snd (strconv.ParseInt ind) <> None.

(** The action [e] is an entry in the error log. *)
Definition is_log {F : Foreign} (e : Event F) : Prop :=
  exists format args, e = EvLogErrorf format args.

(** The header value [ind] is the decimal notation of a non-negative
    64-bit integer: it has no sign and [strconv.ParseUint] reads it as a
    number below [2 ^ 63]. *)
Definition parses_nonneg (ind : string) : Prop :=
  exists n, strconv.ParseUint ind = (n, None) /\ 0 <= n < 2 ^ 63.

(** The request the spec describes: the path, then the index in decimal
    and the wait in whole seconds. *)
Definition requestShape (path : string) (index : Z) (wait : time.Duration) : string :=
  (path ++ "&index=" ++ strconv.FormatInt index
        ++ "&wait=" ++ strconv.FormatInt (Z.quot wait time.Second) ++ "s")%string.

(** The power of ten above the digits [format_loop] writes for [u]. *)
Fixpoint scale (fuel : nat) (u : Z) : Z :=
  match fuel with
  | O => 1
  | S fuel' => if u <? 10 then 10 else 10 * scale fuel' (u / 10)
  end.

(** ** What the further properties speak about *)

(** The arguments [newAPIConfig] gives to [promauth.NewConfig] for a
    resolved token: basic auth and no token when the descriptor has a
    user name, the token alone otherwise. *)
Definition authArguments {F : Foreign} (sdc : SDConfig F) (token : string)
  : option BasicAuthConfig * string :=
  if 0 <? Z.of_nat (String.length (Username sdc)) then
    (Some {| ba_Username := Username sdc; ba_Password := Password sdc |}, "")
  else (None, token).

(** The address [newAPIConfig] makes its client for. *)
Definition normalizedServer {F : Foreign} (sdc : SDConfig F) : string :=
  let apiServer := if String.eqb (Server sdc) "" then "localhost:8500" else Server sdc in
  if negb (strings.Contains apiServer "://") then
    ((if String.eqb (Scheme sdc) "" then "http" else Scheme sdc) ++ "://" ++ apiServer)%string
  else apiServer.

(** The tag separator [newAPIConfig] puts in the config. *)
Definition tagSeparatorOf {F : Foreign} (sdc : SDConfig F) : string :=
  match TagSeparator sdc with
  | Some sep => sep
  | None => ","
  end.

(** The test [getMeta] makes before it logs: the header is empty or
    [strconv.ParseInt] returns an error. *)
Definition anomalousb {F : Foreign} (W : World F) (resp : Response F) : bool :=
  let ind := Header_Peek W resp "X-Consul-Index" in
  (Z.of_nat (String.length ind) =? 0)
  || match snd (strconv.ParseInt ind) with Some _ => true | None => false end.

(** The action only reads the environment or a file. *)
Definition is_env_read {F : Foreign} (e : Event F) : Prop :=
  match e with
  | EvGetenv _ | EvReadFile _ => True
  | _ => False
  end.

(** Where the error of a build comes from: [getToken], the auth config,
    the proxy auth config, the client, the request to the agent, or the
    parsing of the agent's answer. *)
Inductive BuildError {F : Foreign} (W : World F) (sdc : SDConfig F) (baseDir : string)
  : error -> Prop :=
| TokenError (e : error) :
    value (getToken W (Token sdc)) = Err e ->
    BuildError W sdc baseDir e
| AuthConfigError (token : string) (cause : error) :
    value (getToken W (Token sdc)) = Ok token ->
    promauth_NewConfig W baseDir (fst (authArguments sdc token))
      (snd (authArguments sdc token)) (sdcTLSConfig sdc) = Err cause ->
    BuildError W sdc baseDir (Errorf "cannot parse auth config: %w" [ArgError cause])
| ProxyConfigError (cause : error) :
    ProxyClientConfig_NewConfig W (sdcProxyClientConfig sdc) baseDir = Err cause ->
    BuildError W sdc baseDir (Errorf "cannot parse proxy auth config: %w" [ArgError cause])
| ClientError (ac : AuthConfig F) (proxyAC : ProxyAuthConfig F) (cause : error) :
    discoveryutils_NewClient W (normalizedServer sdc) ac (sdcProxyURL sdc) proxyAC
    = Err cause ->
    BuildError W sdc baseDir
      (Errorf "cannot create HTTP client for %q: %w"
              [ArgString (normalizedServer sdc); ArgError cause])
| AgentRequestError (client : Client F) (cause : error) :
    Datacenter sdc = "" ->
    Client_GetAPIResponse W client "/v1/agent/self" = Err cause ->
    BuildError W sdc baseDir (Errorf "cannot query consul agent info: %w" [ArgError cause])
| AgentParseError (client : Client F) (data : string) (e : error) :
    Datacenter sdc = "" ->
    Client_GetAPIResponse W client "/v1/agent/self" = Ok data ->
    parseAgent W data = Err e ->
    BuildError W sdc baseDir e.

(** ** A small concrete world, for running the model *)

Module Sample.

Definition F : Foreign := {|
  TLSConfig := unit;
  ProxyClientConfig := unit;
  ProxyURL := unit;
  AuthConfig := (option BasicAuthConfig * string)%type;
  ProxyAuthConfig := unit;
  Client := string;
  Response := list (string * string);
  consulWatcher := string
|}.

Fixpoint lookup (key : string) (h : list (string * string)) : string :=
  match h with
  | [] => ""
  | (k, v) :: h' => if String.eqb k key then v else lookup key h'
  end.

(** A world with the given environment, files, answer of the agent
    endpoint, outcome of a blocking request, read timeout and flag. The
    auth config records what it was made from, the client is its address,
    the watcher is its datacenter, and the agent's answer is its
    datacenter (an empty answer does not parse). *)
Definition world (env : string -> string) (files : string -> result string)
  (agent : result string) (blocking : list (list (string * string)) * result string)
  (timeout wait : time.Duration) : World F :=
  Build_World F
    env
    files
    (fun _ ba token _ => Ok (ba, token))
    (fun _ _ => Ok tt)
    (fun apiServer _ _ _ => Ok apiServer)
    (fun _ _ => agent)
    (fun _ _ => blocking)
    (fun resp key => lookup key resp)
    (fun data =>
       if String.eqb data "" then Err (External "unexpected end of JSON input")
       else Ok {| Config_Datacenter := data |})
    (fun _ _ dc => dc)
    timeout
    wait.

Definition sdc (server scheme dc user pass : string) (token sep : option string)
  : SDConfig F :=
  Build_SDConfig F server token dc scheme user pass tt tt None sep.

Definition noEnv : string -> string := fun _ => "".
Definition noFiles : string -> result string :=
  fun _ => Err (External "no such file or directory").

(** The environment names a token file. *)
Definition tokenFileEnv (file : string) : string -> string :=
  fun name => if String.eqb name "CONSUL_HTTP_TOKEN_FILE" then file else "".

(** A plain world: nothing in the environment, an agent in [dc1], blocking
    requests that answer with one response carrying the given index
    header, a read timeout of 10 seconds and the flag unset. *)
Definition plain (indexHeader : string) : World F :=
  world noEnv noFiles (Ok "dc1")
        ([[("X-Consul-Index", indexHeader)]], Ok "[]")
        (10 * time.Second) 0.

End Sample.

(** Worlds and a path for the runs at the end of the file. *)
Module Runs.

(** A world with the given read timeout and the given value of the
    wait-time flag. *)
Definition timed (timeout wait : time.Duration) : World Sample.F :=
  Sample.world Sample.noEnv Sample.noFiles (Ok "dc1") ([], Ok "") timeout wait.

(** A world whose environment names a token file that cannot be read. *)
Definition unreadable : World Sample.F :=
  Sample.world (Sample.tokenFileEnv "/etc/consul/token") Sample.noFiles
               (Ok "dc1") ([], Ok "") (10 * time.Second) 0.

(** A world whose agent does not answer. *)
Definition deaf : World Sample.F :=
  Sample.world Sample.noEnv Sample.noFiles (Err (External "connection refused"))
               ([], Ok "") (10 * time.Second) 0.

Definition services : string := "/v1/catalog/services?dc=dc1".

(** An environment that names a token file and holds a token besides. *)
Definition bothEnv : string -> string :=
  fun name =>
    if String.eqb name "CONSUL_HTTP_TOKEN_FILE" then "/etc/consul/token"
    else if String.eqb name "CONSUL_HTTP_TOKEN" then "from-env"
    else "".

(** A file system with one file, the token file. *)
Definition tokenFiles : string -> result string :=
  fun path =>
    if String.eqb path "/etc/consul/token" then Ok "from-file"
    else Err (External "no such file or directory").

(** A world whose token file can be read. *)
Definition readable : World Sample.F :=
  Sample.world bothEnv tokenFiles (Ok "dc1") ([], Ok "") (10 * time.Second) 0.

(** A world whose blocking requests fail before any response. *)
Definition failing : World Sample.F :=
  Sample.world Sample.noEnv Sample.noFiles (Ok "dc1")
               ([], Err (External "timeout")) (10 * time.Second) 0.

(** A descriptor with nothing set. *)
Definition bare : SDConfig Sample.F := Sample.sdc "" "" "" "" "" None None.

End Runs.

(** ** Proof automation *)

(** One step of a run: case analysis on the next result the run depends on. *)
Ltac next_case :=
  match goal with
  | |- context [match ?x with _ => _ end] =>
      lazymatch x with
      | context [match _ with _ => _ end] => fail
      | _ => destruct x eqn:?
      end
  | H : context [match ?x with _ => _ end] |- _ =>
      lazymatch x with
      | context [match _ with _ => _ end] => fail
      | _ => destruct x eqn:?
      end
  end.

Ltac run_build :=
  unfold newAPIConfig, getToken, getDatacenter, bind, act, ret, trace, value in *;
  repeat (cbn [fst snd app negb] in *; try next_case).

(** The cases of a membership in a trace that is put together from parts. *)
Ltac split_in :=
  repeat match goal with
         | H : In _ (_ ++ _) |- _ => apply in_app_or in H; destruct H as [H | H]
         | H : In _ (_ :: _) |- _ => destruct H as [H | H]
         | H : In _ [] |- _ => destruct H
         end.

(** ** Machine arithmetic *)

Lemma wrap_in_range (z : Z) : Int64.in_range z -> Int64.wrap z = z.
Proof.
  unfold Int64.in_range, Int64.min_int, Int64.max_int, Int64.wrap.
  intros H.
  rewrite Z.mod_small; lia.
Qed.

Lemma quot_in_range (a b : Z) :
  Int64.in_range a -> 0 < b -> Int64.in_range (Z.quot a b).
Proof.
  unfold Int64.in_range, Int64.min_int, Int64.max_int.
  intros Ha Hb.
  destruct (Z.le_gt_cases 0 a) as [Hpos | Hneg].
  - assert (0 <= Z.quot a b) by (apply Z.quot_pos; lia).
    assert (Z.quot a b <= a) by (apply Z.quot_le_upper_bound; nia).
    lia.
  - assert (Hq : Z.quot a b = - Z.quot (- a) b) by (rewrite Z.quot_opp_l; lia).
    assert (0 <= Z.quot (- a) b) by (apply Z.quot_pos; lia).
    assert (Z.quot (- a) b <= - a) by (apply Z.quot_le_upper_bound; nia).
    lia.
Qed.

(** No step of [d -= d / 8] overflows: the eighth has the sign of [d] and
    is no larger. *)
Lemma sub_eighth (d : Z) :
  Int64.in_range d -> Int64.sub d (Int64.div d 8) = d - Z.quot d 8.
Proof.
  intros Hd.
  unfold Int64.sub, Int64.div.
  rewrite (wrap_in_range (Z.quot d 8)) by (apply quot_in_range; [assumption | lia]).
  apply wrap_in_range.
  revert Hd. unfold Int64.in_range, Int64.min_int, Int64.max_int. intros Hd.
  destruct (Z.le_gt_cases 0 d) as [Hpos | Hneg].
  - assert (0 <= Z.quot d 8) by (apply Z.quot_pos; lia).
    assert (Z.quot d 8 <= d) by (apply Z.quot_le_upper_bound; lia).
    lia.
  - assert (Hq : Z.quot d 8 = - Z.quot (- d) 8) by (rewrite Z.quot_opp_l; lia).
    assert (0 <= Z.quot (- d) 8) by (apply Z.quot_pos; lia).
    assert (Z.quot (- d) 8 <= - d) by (apply Z.quot_le_upper_bound; lia).
    lia.
Qed.

Lemma ten_minutes : Int64.mul 10 time.Minute = 10 * time.Minute.
Proof. reflexivity. Qed.

(** ** binary64: what [Seconds] and [int(...)] compute

    The facts below follow the definitions of [SpecFloat] step by step:
    shifting, rounding to nearest even, and the alignment of exponents. *)

Lemma digits2_pos_bounds (p : positive) :
  2 ^ (Zpos (digits2_pos p) - 1) <= Zpos p < 2 ^ Zpos (digits2_pos p).
Proof.
  induction p as [p IH | p IH |]; cbn [digits2_pos].
  - rewrite Pos2Z.inj_succ.
    replace (Z.succ (Zpos (digits2_pos p)) - 1) with (Z.succ (Zpos (digits2_pos p) - 1)) by lia.
    rewrite !Z.pow_succ_r by lia. lia.
  - rewrite Pos2Z.inj_succ.
    replace (Z.succ (Zpos (digits2_pos p)) - 1) with (Z.succ (Zpos (digits2_pos p) - 1)) by lia.
    rewrite !Z.pow_succ_r by lia. lia.
  - cbn. lia.
Qed.

Lemma iter_xO (m d : positive) : Zpos (Pos.iter xO m d) = Zpos m * 2 ^ Zpos d.
Proof.
  induction d as [| d IH] using Pos.peano_ind.
  - cbn. lia.
  - rewrite Pos.iter_succ, Pos2Z.inj_succ, Z.pow_succ_r by lia.
    rewrite Pos2Z.inj_xO, IH. lia.
Qed.

Lemma iter_pos_iter {A : Type} (f : A -> A) (n : positive) (x : A) :
  iter_pos f n x = Pos.iter f x n.
Proof.
  revert x. induction n as [n IH | n IH |]; intros x; cbn [iter_pos Pos.iter].
  - rewrite !IH. rewrite <- !Pos.iter_swap. reflexivity.
  - rewrite !IH. reflexivity.
  - reflexivity.
Qed.

Lemma shr_1_m (mrs : shr_record) : 0 <= shr_m mrs -> shr_m (shr_1 mrs) = shr_m mrs / 2.
Proof.
  destruct mrs as [m r s]. cbn [shr_m]. intros Hm.
  destruct m as [| p | p]; [reflexivity | | lia].
  destruct p as [p | p |]; cbn [shr_1 shr_m].
  - rewrite Pos2Z.inj_xI. apply Z.div_unique with (r := 1); lia.
  - rewrite Pos2Z.inj_xO. apply Z.div_unique with (r := 0); lia.
  - reflexivity.
Qed.

Lemma shr_iter_m (n : positive) (mrs : shr_record) :
  0 <= shr_m mrs -> shr_m (iter_pos shr_1 n mrs) = shr_m mrs / 2 ^ Zpos n.
Proof.
  intros Hm. rewrite iter_pos_iter.
  induction n as [| n IH] using Pos.peano_ind.
  - cbn [Pos.iter]. rewrite shr_1_m by assumption. reflexivity.
  - rewrite Pos.iter_succ, Pos2Z.inj_succ, Z.pow_succ_r by lia.
    rewrite shr_1_m.
    + rewrite IH. rewrite Z.div_div by lia. f_equal. lia.
    + rewrite IH. apply Z.div_pos; lia.
Qed.

Lemma round_nearest_even_bounds (m : Z) (l : location) :
  m <= round_nearest_even m l <= m + 1.
Proof.
  destruct l as [| []]; cbn [round_nearest_even]; try lia.
  destruct (Z.even m); lia.
Qed.

Lemma fexp_normal (e : Z) : -1021 <= e -> fexp 53 1024 e = e - 53.
Proof. unfold fexp, emin. lia. Qed.

Lemma Zdigits2_unique (z k : Z) :
  0 < z -> 2 ^ (k - 1) <= z < 2 ^ k -> Zdigits2 z = k.
Proof.
  intros Hz Hk.
  destruct z as [| p | p]; try lia.
  cbn [Zdigits2].
  pose proof (digits2_pos_bounds p) as Hd.
  set (d := Zpos (digits2_pos p)) in *.
  assert (0 < d) by (unfold d; lia).
  assert (0 <= k).
  { destruct (Z.le_gt_cases 0 k); [assumption |].
    rewrite (Z.pow_neg_r 2 k) in Hk by lia. lia. }
  assert (d - 1 < k).
  { apply (Z.pow_lt_mono_r_iff 2); lia. }
  assert (k - 1 < d).
  { destruct (Z.le_gt_cases 0 (k - 1)).
    - apply (Z.pow_lt_mono_r_iff 2); lia.
    - lia. }
  lia.
Qed.

Lemma Zdigits2_bounds (z : Z) :
  0 < z -> 2 ^ (Zdigits2 z - 1) <= z < 2 ^ Zdigits2 z.
Proof.
  destruct z as [| p | p]; try lia. intros _. apply digits2_pos_bounds.
Qed.

Lemma shr_record_of_loc_m (m : Z) (l : location) : shr_m (shr_record_of_loc m l) = m.
Proof. destruct l as [| []]; reflexivity. Qed.

Lemma loc_of_shr_record_of_loc (m : Z) (l : location) :
  loc_of_shr_record (shr_record_of_loc m l) = l.
Proof. destruct l as [| []]; reflexivity. Qed.

Lemma shr_m_spec (mrs : shr_record) (e n : Z) :
  0 <= shr_m mrs -> 0 <= n ->
  shr_m (fst (shr mrs e n)) = shr_m mrs / 2 ^ n /\ snd (shr mrs e n) = e + n.
Proof.
  intros Hm Hn. destruct n as [| p | p]; try lia; cbn [shr fst snd].
  - rewrite Z.pow_0_r, Z.div_1_r. split; [reflexivity | lia].
  - split; [apply shr_iter_m; assumption | reflexivity].
Qed.

Lemma pow2_split (a b : Z) : 0 <= a -> 0 <= b -> 2 ^ (a + b) = 2 ^ a * 2 ^ b.
Proof. intros. apply Z.pow_add_r; assumption. Qed.

(** Rounding a positive mantissa of at least 53 digits. *)
Lemma binary_round_aux_spec (mx ex : Z) (lx : location) (d : Z) :
  0 < mx -> Zdigits2 mx = d -> 53 <= d -> -1074 <= ex -> ex + d <= 1023 ->
  exists m k m1,
    binary_round_aux 53 1024 false mx ex lx = S754_finite false m (ex + k)
    /\ (k = d - 53 \/ k = d - 52)
    /\ 2 ^ 52 <= Zpos m < 2 ^ 53
    /\ mx / 2 ^ (d - 53) <= m1 <= mx / 2 ^ (d - 53) + 1
    /\ Zpos m * 2 ^ k = m1 * 2 ^ (d - 53)
    /\ (d = 53 -> m1 = round_nearest_even mx lx).
Proof.
  intros Hmx Hd Hd53 Hex Hmax.
  pose proof (Zdigits2_bounds mx Hmx) as Hb. rewrite Hd in Hb.
  set (n := d - 53) in *.
  assert (Hn : 0 <= n) by (unfold n; lia).
  assert (Hpow : 2 ^ (d - 1) = 2 ^ 52 * 2 ^ n).
  { replace (d - 1) with (52 + n) by (unfold n; lia). apply pow2_split; lia. }
  assert (Hpow' : 2 ^ d = 2 ^ 53 * 2 ^ n).
  { replace d with (53 + n) at 1 by (unfold n; lia). apply pow2_split; lia. }
  assert (Hn2 : 0 < 2 ^ n) by (apply Z.pow_pos_nonneg; lia).
  set (m' := mx / 2 ^ n).
  assert (Hm' : 2 ^ 52 <= m' < 2 ^ 53).
  { unfold m'. split.
    - apply Z.div_le_lower_bound; lia.
    - apply Z.div_lt_upper_bound; lia. }
  unfold binary_round_aux.
  assert (Hshr1 : shr_fexp 53 1024 mx ex lx
                  = (fst (shr (shr_record_of_loc mx lx) ex n),
                     snd (shr (shr_record_of_loc mx lx) ex n))).
  { unfold shr_fexp. rewrite Hd, fexp_normal by lia.
    replace (d + ex - 53 - ex) with n by (unfold n; lia).
    destruct (shr (shr_record_of_loc mx lx) ex n); reflexivity. }
  rewrite Hshr1.
  destruct (shr_m_spec (shr_record_of_loc mx lx) ex n) as [Hm1 He1];
    [rewrite shr_record_of_loc_m; lia | lia |].
  rewrite shr_record_of_loc_m in Hm1. fold m' in Hm1.
  set (mrs1 := fst (shr (shr_record_of_loc mx lx) ex n)) in *.
  rewrite He1. rewrite Hm1.
  set (m1 := round_nearest_even m' (loc_of_shr_record mrs1)).
  pose proof (round_nearest_even_bounds m' (loc_of_shr_record mrs1)) as Hr. fold m1 in Hr.
  assert (Hexact : d = 53 -> m1 = round_nearest_even mx lx).
  { intros H53. unfold m1, mrs1, m'.
    replace n with 0 by (unfold n; lia).
    cbn [shr fst]. rewrite loc_of_shr_record_of_loc.
    rewrite Z.pow_0_r, Z.div_1_r. reflexivity. }
  destruct (Z.eq_dec m1 (2 ^ 53)) as [Hover | Hno].
  - (* the rounding carried into a 54th digit *)
    assert (Hd1 : Zdigits2 m1 = 54).
    { apply Zdigits2_unique; rewrite Hover; cbn; lia. }
    unfold shr_fexp. rewrite Hd1, fexp_normal by lia.
    replace (54 + (ex + n) - 53 - (ex + n)) with 1 by lia.
    cbn [shr iter_pos fst snd].
    rewrite shr_1_m by (rewrite Hover; cbn; lia).
    cbn [shr_record_of_loc shr_m]. rewrite Hover.
    change (2 ^ 53 / 2) with (Zpos (2 ^ 52)).
    cbv iota beta.
    replace (ex + n + 1 <=? 1024 - 53) with true by (symmetry; apply Z.leb_le; lia).
    exists (2 ^ 52)%positive, (n + 1), m1.
    repeat split; try (cbn; lia).
    + f_equal. lia.
    + rewrite pow2_split by lia. rewrite Hover.
      change (Zpos (2 ^ 52)) with 4503599627370496.
      change (2 ^ 1) with 2.
      change (2 ^ 53) with 9007199254740992. lia.
  - assert (Hd1 : Zdigits2 m1 = 53).
    { apply Zdigits2_unique; [lia |]. change (53 - 1) with 52. lia. }
    unfold shr_fexp. rewrite Hd1, fexp_normal by lia.
    replace (53 + (ex + n) - 53 - (ex + n)) with 0 by lia.
    cbn [shr fst snd shr_record_of_loc shr_m].
    destruct m1 as [| p | p] eqn:Hm1p; try lia.
    replace (ex + n <=? 1024 - 53) with true by (symmetry; apply Z.leb_le; lia).
    exists p, n, (Zpos p).
    repeat split; lia.
Qed.

(** [float64(z)] is exact for 0 < z < 2^53: a 53-digit mantissa and the
    exponent that makes up for it. *)
Lemma of_int_spec (z : Z) :
  0 < z < 2 ^ 53 ->
  exists m e,
    Float64.of_int z = S754_finite false m e
    /\ -52 <= e <= 0
    /\ 2 ^ 52 <= Zpos m < 2 ^ 53
    /\ Zpos m = z * 2 ^ (- e).
Proof.
  intros Hz. destruct z as [| p | p]; try lia.
  pose proof (digits2_pos_bounds p) as Hb.
  set (d := Zpos (digits2_pos p)) in *.
  assert (Hd : 1 <= d <= 53).
  { split; [unfold d; lia |].
    destruct (Z.le_gt_cases d 53); [assumption |].
    assert (2 ^ 53 <= 2 ^ (d - 1)) by (apply Z.pow_le_mono_r; lia). lia. }
  unfold Float64.of_int, Float64.prec, Float64.emax, binary_normalize, binary_round.
  fold d. rewrite fexp_normal by lia.
  assert (Hal : exists mz,
             shl_align p 0 (d + 0 - 53) = (mz, d - 53) /\ Zpos mz = Zpos p * 2 ^ (53 - d)).
  { unfold shl_align.
    destruct (d + 0 - 53 - 0) as [| q | q] eqn:Hq; try lia.
    - exists p. replace (53 - d) with 0 by lia. rewrite Z.pow_0_r.
      split; [f_equal; lia | lia].
    - exists (Pos.iter xO p q). split; [f_equal; lia |].
      rewrite iter_xO. f_equal. f_equal. lia. }
  destruct Hal as [mz [Hal Hmz]]. rewrite Hal. cbv beta iota.
  assert (Hpow : 2 ^ 53 = 2 ^ d * 2 ^ (53 - d)).
  { rewrite <- pow2_split by lia. f_equal. lia. }
  assert (Hpow' : 2 ^ 52 = 2 ^ (d - 1) * 2 ^ (53 - d)).
  { rewrite <- pow2_split by lia. f_equal. lia. }
  assert (Hp2 : 0 < 2 ^ (53 - d)) by (apply Z.pow_pos_nonneg; lia).
  assert (Hmzb : 2 ^ 52 <= Zpos mz < 2 ^ 53).
  { rewrite Hmz, Hpow, Hpow'. nia. }
  assert (Hdz : Zdigits2 (Zpos mz) = 53).
  { apply Zdigits2_unique; [lia |]. change (53 - 1) with 52. exact Hmzb. }
  destruct (binary_round_aux_spec (Zpos mz) (d - 53) loc_Exact 53)
    as [m [k [m1 [Hr [Hk [Hm [Hm1 [Hv Hex]]]]]]]]; try lia.
  rewrite Hr.
  specialize (Hex eq_refl). cbn [round_nearest_even] in Hex. subst m1.
  change (2 ^ (53 - 53)) with 1 in Hv.
  assert (k = 0).
  { destruct Hk as [Hk | Hk]; [lia |].
    replace k with 1 in Hv by lia. change (2 ^ 1) with 2 in Hv. lia. }
  subst k. rewrite Z.pow_0_r in Hv.
  exists m, (d - 53). repeat split; try lia.
  - f_equal. lia.
  - replace (- (d - 53)) with (53 - d) by lia. lia.
Qed.

Lemma f1e9_value : Float64.f1e9 = S754_finite false 8388608000000000 (-23).
Proof. reflexivity. Qed.

Lemma div_eucl_div_mod (a b : Z) : Z.div_eucl a b = (a / b, a mod b).
Proof. unfold Z.div, Z.modulo. destruct (Z.div_eucl a b); reflexivity. Qed.

(** The quotient of a non-zero nanosecond count by [1e9], as a float: its
    mantissa has 53 digits, and its value [mq / 2 ^ E] stays a little
    below one. *)
Lemma div_1e9_spec (r : Z) :
  0 < r < 1000000000 ->
  exists mq E,
    Float64.div (Float64.of_int r) Float64.f1e9 = S754_finite false mq (- E)
    /\ 53 <= E <= 85
    /\ 2 ^ 52 <= Zpos mq < 2 ^ 53
    /\ Zpos mq * 1000000000 <= 999999999 * 2 ^ E + 2000000000.
Proof.
  intros Hr.
  destruct (of_int_spec r) as [m1 [e1 [Hof [He1 [Hm1 Hv1]]]]]; [lia |].
  rewrite Hof, f1e9_value. unfold Float64.div, Float64.prec, Float64.emax, SFdiv.
  set (m2 := 8388608000000000%positive).
  set (A := 2 ^ (- e1)) in *.
  assert (HA : 0 < A) by (apply Z.pow_pos_nonneg; lia).
  assert (Hd1 : Zdigits2 (Zpos m1) = 53).
  { apply Zdigits2_unique; [lia |]. change (53 - 1) with 52. exact Hm1. }
  assert (Hcore : SFdiv_core_binary 53 1024 (Zpos m1) e1 (Zpos m2) (-23)
                  = (Zpos m1 * 2 ^ 53 / Zpos m2, e1 - 30,
                     new_location (Zpos m2) ((Zpos m1 * 2 ^ 53) mod Zpos m2))).
  { unfold SFdiv_core_binary. rewrite Hd1.
    change (Zdigits2 (Zpos m2)) with 53.
    replace (53 + e1 - (53 + -23)) with (e1 + 23) by lia.
    rewrite fexp_normal by lia.
    replace (Z.min (e1 + 23 - 53) (e1 - -23)) with (e1 - 30) by lia.
    replace (e1 - -23 - (e1 - 30)) with 53 by lia.
    rewrite Z.shiftl_mul_pow2 by lia.
    rewrite div_eucl_div_mod. reflexivity. }
  rewrite Hcore. cbn [xorb].
  set (q := Zpos m1 * 2 ^ 53 / Zpos m2).
  assert (Hm2 : Zpos m2 = 1000000000 * 2 ^ 23) by reflexivity.
  assert (Hq : 2 ^ 52 <= q < 2 ^ 54).
  { unfold q. split.
    - apply Z.div_le_lower_bound; [lia |].
      rewrite Hm2. change (2 ^ 52) with 4503599627370496 in *.
      change (2 ^ 53) with 9007199254740992. change (2 ^ 23) with 8388608. lia.
    - apply Z.div_lt_upper_bound; [lia |].
      rewrite Hm2. change (2 ^ 54) with 18014398509481984.
      change (2 ^ 53) with 9007199254740992 in *. change (2 ^ 23) with 8388608. lia. }
  assert (Hqle : q * 1000000000 * 2 ^ 23 <= Zpos m1 * 2 ^ 53).
  { unfold q. rewrite <- Z.mul_assoc, <- Hm2.
    rewrite Z.mul_comm. apply Z.mul_div_le. lia. }
  set (dq := Zdigits2 q).
  assert (Hdq : dq = 53 \/ dq = 54).
  { destruct (Z.lt_ge_cases q (2 ^ 53)).
    - left. apply Zdigits2_unique; [lia |]. change (53 - 1) with 52. lia.
    - right. apply Zdigits2_unique; [lia |]. change (54 - 1) with 53. lia. }
  destruct (binary_round_aux_spec q (e1 - 30)
              (new_location (Zpos m2) ((Zpos m1 * 2 ^ 53) mod Zpos m2)) dq)
    as [mq [k [mm [Hres [Hk [Hmq [Hmm [Hval _]]]]]]]]; try lia; try reflexivity.
  rewrite Hres.
  set (E := 30 - e1 - k).
  exists mq, E.
  assert (Hk2 : 0 <= k <= 2) by lia.
  assert (HE : 2 ^ E * 2 ^ k = A * 2 ^ 30).
  { unfold E, A. rewrite <- !pow2_split by lia. f_equal. lia. }
  assert (Hk0 : 0 < 2 ^ k) by (apply Z.pow_pos_nonneg; lia).
  assert (HE0 : 0 < 2 ^ E) by (apply Z.pow_pos_nonneg; unfold E; lia).
  assert (Hup : Zpos mq * 2 ^ k <= q + 2).
  { rewrite Hval.
    assert (Hn : 0 < 2 ^ (dq - 53) <= 2).
    { destruct Hdq as [-> | ->]; cbn; lia. }
    assert (q / 2 ^ (dq - 53) * 2 ^ (dq - 53) <= q).
    { rewrite Z.mul_comm. apply Z.mul_div_le. lia. }
    nia. }
  assert (Hmain : Zpos mq * 1000000000 <= 999999999 * 2 ^ E + 2000000000).
  { assert (H1 : Zpos mq * 2 ^ k * 1000000000 * 2 ^ 23
                 <= r * A * 2 ^ 53 + 2000000000 * 2 ^ 23).
    { rewrite Hv1 in Hqle. nia. }
    assert (H2 : Zpos mq * 2 ^ k * 1000000000 <= r * (2 ^ E * 2 ^ k) + 2000000000).
    { rewrite HE. change (2 ^ 53) with (2 ^ 30 * 2 ^ 23) in H1.
      change (2 ^ 23) with 8388608 in H1. change (2 ^ 30) with 1073741824 in *. nia. }
    assert (H3 : Zpos mq * 2 ^ k * 1000000000
                 <= (999999999 * 2 ^ E + 2000000000) * 2 ^ k).
    { nia. }
    apply Z.mul_le_mono_pos_r with (p := 2 ^ k); [assumption |]. lia. }
  repeat split; try lia.
  - f_equal. unfold E. lia.
  - (* 53 <= E: the mantissa has 53 digits and the value is below one *)
    destruct (Z.le_gt_cases 53 E) as [Hge | Hlt]; [assumption |].
    assert (2 ^ E <= 2 ^ 52) by (apply Z.pow_le_mono_r; lia).
    change (2 ^ 52) with 4503599627370496 in *. lia.
Qed.

Lemma shl_align_down (mx : positive) (ex ex' : Z) :
  ex' <= ex ->
  exists m', shl_align mx ex ex' = (m', ex') /\ Zpos m' = Zpos mx * 2 ^ (ex - ex').
Proof.
  intros Hle. unfold shl_align.
  destruct (ex' - ex) as [| q | q] eqn:Hq; try lia.
  - exists mx. replace (ex - ex') with 0 by lia. rewrite Z.pow_0_r.
    split; [f_equal; lia | lia].
  - exists (Pos.iter xO mx q). split; [reflexivity |].
    rewrite iter_xO. f_equal. f_equal. lia.
Qed.

Lemma shl_align_up (mx : positive) (ex ex' : Z) :
  ex <= ex' -> shl_align mx ex ex' = (mx, ex).
Proof.
  intros Hle. unfold shl_align.
  destruct (ex' - ex) as [| q | q] eqn:Hq; try lia; reflexivity.
Qed.

(** [int(f)] of a positive float with a negative exponent. *)
Lemma to_int_neg_exp (m : positive) (E : Z) :
  0 < E -> Zpos m / 2 ^ E < 2 ^ 63 ->
  Float64.to_int (S754_finite false m (- E)) = Zpos m / 2 ^ E.
Proof.
  intros HE Hsmall. unfold Float64.to_int.
  destruct E as [| p | p]; try lia. cbn [Z.opp].
  rewrite Z.shiftr_div_pow2 by lia.
  apply wrap_in_range. unfold Int64.in_range, Int64.min_int, Int64.max_int.
  assert (0 <= Zpos m / 2 ^ Zpos p) by (apply Z.div_pos; lia).
  lia.
Qed.

Lemma to_int_of_int (s : Z) : 0 < s < 2 ^ 53 -> Float64.to_int (Float64.of_int s) = s.
Proof.
  intros Hs.
  destruct (of_int_spec s Hs) as [ms [es [Hof [Hes [Hms Hvs]]]]].
  rewrite Hof.
  destruct (Z.eq_dec es 0) as [-> | Hne].
  - cbn [Float64.to_int]. rewrite Z.shiftl_0_r.
    change (2 ^ (- 0)) with 1 in Hvs.
    change (2 ^ 53) with 9007199254740992 in *.
    rewrite wrap_in_range; [lia |].
    unfold Int64.in_range, Int64.min_int, Int64.max_int. lia.
  - replace es with (- (- es)) by lia.
    assert (Hdiv : Zpos ms / 2 ^ (- es) = s).
    { rewrite Hvs. apply Z.div_mul. apply Z.pow_nonzero; lia. }
    rewrite to_int_neg_exp; lia.
Qed.

(** The heart of [Seconds]: for fewer than 1024 whole seconds, adding the
    fraction never reaches the next whole second. *)
Lemma to_int_add_fraction (s r : Z) :
  0 <= s < 1024 -> 0 <= r < 1000000000 ->
  Float64.to_int
    (Float64.add (Float64.of_int s) (Float64.div (Float64.of_int r) Float64.f1e9)) = s.
Proof.
  intros Hs Hr.
  destruct (Z.eq_dec r 0) as [-> | Hr0].
  - (* no fraction *)
    change (Float64.div (Float64.of_int 0) Float64.f1e9) with (S754_zero false).
    destruct (Z.eq_dec s 0) as [-> | Hs0]; [reflexivity |].
    assert (Hs' : 0 < s < 2 ^ 53) by (change (2 ^ 53) with 9007199254740992; lia).
    destruct (of_int_spec s Hs') as [ms [es [Hof _]]].
    pose proof (to_int_of_int s Hs') as Hto.
    rewrite Hof in *. exact Hto.
  - destruct (div_1e9_spec r) as [mq [E [Hdiv [HE [Hmq Hmain]]]]]; [lia |].
    rewrite Hdiv.
    assert (HE0 : 2 ^ 53 <= 2 ^ E) by (apply Z.pow_le_mono_r; lia).
    change (2 ^ 53) with 9007199254740992 in HE0.
    change (2 ^ 52) with 4503599627370496 in Hmq.
    assert (Hfrac : Zpos mq < 2 ^ E) by lia.
    destruct (Z.eq_dec s 0) as [-> | Hs0].
    + (* only a fraction *)
      change (Float64.of_int 0) with (S754_zero false).
      cbn [Float64.add SFadd].
      rewrite to_int_neg_exp; try lia.
      * apply Z.div_small. lia.
      * rewrite Z.div_small by lia. lia.
    + assert (Hs' : 0 < s < 2 ^ 53) by (change (2 ^ 53) with 9007199254740992; lia).
      destruct (of_int_spec s Hs') as [ms [es [Hof [Hes [Hms Hvs]]]]].
      rewrite Hof. unfold Float64.add, Float64.prec, Float64.emax, SFadd.
      replace (Z.min es (- E)) with (- E) by lia.
      destruct (shl_align_down ms es (- E)) as [ms' [Hal Hms']]; [lia |].
      rewrite Hal, (shl_align_up mq (- E) (- E)) by lia.
      cbn [fst cond_Zopp].
      assert (HM : Zpos ms' + Zpos mq = s * 2 ^ E + Zpos mq).
      { rewrite Hms', Hvs. rewrite <- Z.mul_assoc, <- pow2_split by lia.
        f_equal. f_equal. f_equal. lia. }
      change (Zpos ms' + Zpos mq) with (Zpos (ms' + mq)) in *.
      set (Mp := (ms' + mq)%positive) in *.
      unfold binary_normalize, binary_round.
      set (dM := Zpos (digits2_pos Mp)).
      pose proof (digits2_pos_bounds Mp) as HdM. fold dM in HdM.
      assert (HdM1 : 0 < dM) by (unfold dM; lia).
      assert (Hlow : 2 ^ E <= Zpos Mp) by nia.
      assert (Hhigh : Zpos Mp < 2 ^ (10 + E)).
      { rewrite pow2_split by lia. change (2 ^ 10) with 1024. nia. }
      assert (HdMlo : E + 1 <= dM).
      { assert (E < dM); [| lia]. apply (Z.pow_lt_mono_r_iff 2); lia. }
      assert (HdMhi : dM <= 10 + E).
      { assert (dM - 1 < 10 + E); [| lia]. apply (Z.pow_lt_mono_r_iff 2); lia. }
      rewrite fexp_normal by lia.
      rewrite shl_align_up by lia.
      destruct (binary_round_aux_spec (Zpos Mp) (- E) loc_Exact dM)
        as [m [k [mm [Hres [Hk [Hm [Hmm [Hval _]]]]]]]]; try lia; try reflexivity.
      rewrite Hres.
      set (n := dM - 53) in *.
      assert (Hn : 0 <= n <= E - 43) by (unfold n; lia).
      (* everything in units of 2^n *)
      set (Y := 2 ^ (E - 43 - n)).
      assert (HY : 0 < Y) by (apply Z.pow_pos_nonneg; lia).
      assert (Hn0 : 0 < 2 ^ n) by (apply Z.pow_pos_nonneg; lia).
      assert (HEn : 2 ^ E = 2 ^ 43 * Y * 2 ^ n).
      { unfold Y. rewrite <- !pow2_split by lia. f_equal. lia. }
      change (2 ^ 43) with 8796093022208 in HEn.
      assert (Hdivn : Zpos Mp / 2 ^ n = s * (8796093022208 * Y) + Zpos mq / 2 ^ n).
      { rewrite HM, HEn.
        replace (s * (8796093022208 * Y * 2 ^ n) + Zpos mq)
          with (Zpos mq + s * (8796093022208 * Y) * 2 ^ n) by lia.
        rewrite Z.div_add by lia. lia. }
      assert (Hqn : Zpos mq / 2 ^ n * 2 ^ n <= Zpos mq).
      { rewrite Z.mul_comm. apply Z.mul_div_le. lia. }
      assert (Hqn0 : 0 <= Zpos mq / 2 ^ n) by (apply Z.div_pos; lia).
      set (E' := E - k).
      assert (HE' : 42 <= E') by (unfold E'; lia).
      assert (HkE : - E + k = - E') by (unfold E'; lia).
      rewrite HkE.
      assert (Hk0 : 0 < 2 ^ k) by (apply Z.pow_pos_nonneg; lia).
      assert (HEk : 2 ^ E = 2 ^ E' * 2 ^ k).
      { unfold E'. rewrite <- pow2_split by lia. f_equal. lia. }
      assert (HE'0 : 0 < 2 ^ E') by (apply Z.pow_pos_nonneg; lia).
      assert (Hlo : s * 2 ^ E' <= Zpos m).
      { apply Z.mul_le_mono_pos_r with (p := 2 ^ k); [assumption |].
        rewrite <- Z.mul_assoc, <- HEk, Hval, HEn. nia. }
      assert (Hhi : Zpos m < (s + 1) * 2 ^ E').
      { apply Z.mul_lt_mono_pos_r with (p := 2 ^ k); [assumption |].
        rewrite <- Z.mul_assoc, <- HEk, Hval.
        assert (mm * 2 ^ n <= s * 2 ^ E + Zpos mq + 2 ^ n).
        { rewrite HEn. nia. }
        assert ((Zpos mq + 2 ^ n) * 1000000000 < 2 ^ E * 1000000000).
        { rewrite HEn in *. nia. }
        nia. }
      assert (Hres' : Zpos m / 2 ^ E' = s).
      { symmetry. apply Z.div_unique with (r := Zpos m - s * 2 ^ E'); lia. }
      rewrite to_int_neg_exp; lia.
Qed.

(** [int(d.Seconds())] is the number of whole seconds in [d], for a
    duration of less than 1024 seconds that is not negative. *)
Lemma Seconds_whole (d : time.Duration) :
  0 <= d < 1024 * time.Second ->
  Float64.to_int (Seconds d) = Z.quot d time.Second.
Proof.
  change time.Second with 1000000000. intros Hd.
  unfold Seconds, Int64.div, Int64.rem. change time.Second with 1000000000.
  rewrite Z.quot_div_nonneg, Z.rem_mod_nonneg by lia.
  assert (Hq : 0 <= d / 1000000000 < 1024).
  { split; [apply Z.div_pos; lia | apply Z.div_lt_upper_bound; lia]. }
  pose proof (Z.mod_pos_bound d 1000000000 ltac:(lia)) as Hr.
  rewrite !wrap_in_range
    by (unfold Int64.in_range, Int64.min_int, Int64.max_int; lia).
  apply to_int_add_fraction; assumption.
Qed.

(** ** Decimal notation: [FormatInt] and [ParseInt] *)

Lemma digit_val_digit_char (d : Z) :
  0 <= d < 10 -> strconv.digit_val (strconv.digit_char d) = Some d.
Proof.
  intros Hd.
  assert (Hcases : d = 0 \/ d = 1 \/ d = 2 \/ d = 3 \/ d = 4 \/ d = 5 \/ d = 6
                   \/ d = 7 \/ d = 8 \/ d = 9) by lia.
  repeat (destruct Hcases as [-> | Hcases]; [reflexivity |]).
  subst d. reflexivity.
Qed.

Lemma digit_char_not_sign (d : Z) :
  0 <= d < 10 ->
  Ascii.eqb (strconv.digit_char d) "+" = false
  /\ Ascii.eqb (strconv.digit_char d) "-" = false.
Proof.
  intros Hd.
  assert (Hcases : d = 0 \/ d = 1 \/ d = 2 \/ d = 3 \/ d = 4 \/ d = 5 \/ d = 6
                   \/ d = 7 \/ d = 8 \/ d = 9) by lia.
  repeat (destruct Hcases as [-> | Hcases]; [split; reflexivity |]).
  subst d. split; reflexivity.
Qed.

Lemma scale_pos (fuel : nat) (u : Z) : 0 < scale fuel u.
Proof.
  revert u. induction fuel as [| fuel IH]; intros u; cbn [scale]; [lia |].
  destruct (u <? 10); [lia |]. specialize (IH (u / 10)). lia.
Qed.

(** One round of the loop of [ParseUint] on a digit that fits. *)
Lemma parse_loop_digit (d n : Z) (rest : string) :
  0 <= d < 10 -> 0 <= n -> n * 10 + d <= strconv.maxUint64 ->
  strconv.parse_loop (String (strconv.digit_char d) rest) n
  = strconv.parse_loop rest (n * 10 + d).
Proof.
  intros Hd Hn Hfit. cbn [strconv.parse_loop].
  rewrite digit_val_digit_char by assumption.
  unfold strconv.maxUint64 in *.
  change (2 ^ 64 - 1) with 18446744073709551615 in *.
  change (18446744073709551615 / 10 + 1) with 1844674407370955162.
  change (2 ^ 64) with 18446744073709551616.
  destruct (Z.leb_spec 10 d); [lia |].
  destruct (Z.leb_spec 1844674407370955162 n); [lia |].
  cbv zeta. rewrite Z.mod_small by lia.
  destruct (Z.ltb_spec (n * 10 + d) (n * 10)); [lia |].
  destruct (Z.ltb_spec 18446744073709551615 (n * 10 + d)); [lia |].
  reflexivity.
Qed.

(** Reading what [format_loop] wrote appends the digits of [u] to the
    number read so far. *)
Lemma parse_format_loop (fuel : nat) (u n : Z) (acc : string) :
  0 <= u < 10 ^ Z.of_nat fuel -> 0 <= n ->
  n * scale fuel u + u <= strconv.maxUint64 ->
  strconv.parse_loop (strconv.format_loop fuel u acc) n
  = strconv.parse_loop acc (n * scale fuel u + u).
Proof.
  revert u n acc. induction fuel as [| fuel IH]; intros u n acc Hu Hn Hfit.
  - cbn in Hu. assert (u = 0) by lia. subst u.
    cbn [strconv.format_loop scale]. f_equal. lia.
  - cbn [strconv.format_loop scale] in *.
    destruct (Z.ltb_spec u 10) as [Hlt | Hge].
    + apply parse_loop_digit; lia.
    + rewrite Nat2Z.inj_succ, Z.pow_succ_r in Hu by lia.
      pose proof (Z.div_mod u 10 ltac:(lia)) as Hdm.
      pose proof (Z.mod_pos_bound u 10 ltac:(lia)) as Hmod.
      pose proof (scale_pos fuel (u / 10)) as Hsc.
      assert (Hq : 0 <= u / 10 < 10 ^ Z.of_nat fuel).
      { split; [apply Z.div_pos; lia | apply Z.div_lt_upper_bound; lia]. }
      assert (Hfit' : n * scale fuel (u / 10) + u / 10 <= strconv.maxUint64).
      { unfold strconv.maxUint64 in *.
        change (2 ^ 64 - 1) with 18446744073709551615 in *. nia. }
      assert (Hfit2 : (n * scale fuel (u / 10) + u / 10) * 10 + u mod 10
                      = n * (10 * scale fuel (u / 10)) + u) by lia.
      rewrite IH by assumption.
      rewrite parse_loop_digit; [f_equal; exact Hfit2 | lia | nia | lia].
Qed.

Lemma format_loop_head (fuel : nat) (u : Z) (acc : string) :
  0 <= u ->
  exists d rest, 0 <= d < 10
    /\ strconv.format_loop (S fuel) u acc = String (strconv.digit_char d) rest.
Proof.
  revert u acc. induction fuel as [| fuel IH]; intros u acc Hu.
  - cbn [strconv.format_loop]. destruct (Z.ltb_spec u 10).
    + exists u, acc. split; [lia | reflexivity].
    + exists (u mod 10), acc. split; [apply Z.mod_pos_bound; lia | reflexivity].
  - change (strconv.format_loop (S (S fuel)) u acc)
      with (if u <? 10 then String (strconv.digit_char u) acc
            else strconv.format_loop (S fuel) (u / 10)
                   (String (strconv.digit_char (u mod 10)) acc)).
    destruct (Z.ltb_spec u 10).
    + exists u, acc. split; [lia | reflexivity].
    + apply IH. apply Z.div_pos; lia.
Qed.

Lemma ParseUint_FormatUint (u : Z) :
  0 <= u <= strconv.maxUint64 ->
  strconv.ParseUint (strconv.FormatUint u) = (u, None).
Proof.
  intros Hu. unfold strconv.FormatUint.
  destruct (format_loop_head 19 u "") as [d [rest [Hd Hhead]]]; [lia |].
  assert (Hpar : strconv.ParseUint (strconv.format_loop 20 u "")
                 = strconv.parse_loop (strconv.format_loop 20 u "") 0).
  { unfold strconv.ParseUint. rewrite Hhead. reflexivity. }
  rewrite Hpar.
  assert (H20 : 10 ^ Z.of_nat 20 = 100000000000000000000) by reflexivity.
  assert (Hmax : strconv.maxUint64 = 18446744073709551615) by reflexivity.
  rewrite parse_format_loop by lia.
  cbn [strconv.parse_loop]. f_equal; lia.
Qed.

(** [FormatInt] writes the decimal notation of a 64-bit integer:
    [ParseInt] reads the integer back from it. *)
Lemma ParseInt_FormatInt (i : Z) :
  Int64.in_range i -> strconv.ParseInt (strconv.FormatInt i) = (i, None).
Proof.
  unfold Int64.in_range, Int64.min_int, Int64.max_int.
  change (2 ^ 63) with 9223372036854775808. intros Hi.
  unfold strconv.FormatInt.
  destruct (Z.ltb_spec i 0) as [Hneg | Hpos].
  - unfold strconv.ParseInt.
    change (Ascii.eqb "-" "+") with false. change (Ascii.eqb "-" "-") with true.
    cbv iota zeta.
    rewrite ParseUint_FormatUint
      by (unfold strconv.maxUint64; change (2 ^ 64 - 1) with 18446744073709551615; lia).
    change (2 ^ 63) with 9223372036854775808.
    cbn [negb andb].
    destruct (Z.ltb_spec 9223372036854775808 (- i)); [lia |].
    f_equal.
    unfold Int64.wrap. change (2 ^ 63) with 9223372036854775808.
    change (2 ^ 64) with 18446744073709551616.
    destruct (Z.eq_dec i (-9223372036854775808)) as [-> | Hne]; [reflexivity |].
    rewrite (Z.mod_small (- i + 9223372036854775808)) by lia.
    replace (- (- i + 9223372036854775808 - 9223372036854775808) + 9223372036854775808)
      with (i + 9223372036854775808) by lia.
    rewrite Z.mod_small by lia. lia.
  - destruct (format_loop_head 19 i "") as [d [rest [Hd Hhead]]]; [lia |].
    unfold strconv.FormatUint. unfold strconv.ParseInt. rewrite Hhead.
    destruct (digit_char_not_sign d Hd) as [Hplus Hminus].
    rewrite Hplus, Hminus. cbv iota zeta. rewrite <- Hhead.
    change (strconv.format_loop 20 i "") with (strconv.FormatUint i).
    rewrite ParseUint_FormatUint
      by (unfold strconv.maxUint64; change (2 ^ 64 - 1) with 18446744073709551615; lia).
    change (2 ^ 63) with 9223372036854775808.
    cbn [negb andb].
    destruct (Z.leb_spec 9223372036854775808 i); [lia |].
    f_equal. apply wrap_in_range.
    unfold Int64.in_range, Int64.min_int, Int64.max_int.
    change (2 ^ 63) with 9223372036854775808. lia.
Qed.

(** ** The wait-time calculator *)

Section WaitTime.

Context {F : Foreign} (W : World F).

(** C3. For every read-timeout ceiling [C] (a 64-bit duration) and every
    override [w], [maxWaitTime] is [w] when [w] is strictly greater than one
    second and strictly less than [min (C - C/8) (10 minutes)], and that
    minimum otherwise; [C/8] is Go's truncating division. *)
Theorem maxWaitTime_spec :
  Int64.in_range (BlockingClientReadTimeout W) ->
  maxWaitTime W =
    if (time.Second <? waitTime W)
       && (waitTime W <?
             Z.min (BlockingClientReadTimeout W - Z.quot (BlockingClientReadTimeout W) 8)
                   (10 * time.Minute))
    then waitTime W
    else Z.min (BlockingClientReadTimeout W - Z.quot (BlockingClientReadTimeout W) 8)
               (10 * time.Minute).
Proof.
  intros HC.
  unfold maxWaitTime.
  rewrite (sub_eighth _ HC), ten_minutes.
  set (d := BlockingClientReadTimeout W - Z.quot (BlockingClientReadTimeout W) 8).
  assert (Hmin : (if 10 * time.Minute <? d then 10 * time.Minute else d)
                 = Z.min d (10 * time.Minute)).
  { destruct (Z.ltb_spec (10 * time.Minute) d); lia. }
  rewrite Hmin. reflexivity.
Qed.

(** The wait time lies between 0 and 10 minutes when the ceiling is not
    negative. *)
Lemma maxWaitTime_bounds :
  0 <= BlockingClientReadTimeout W <= Int64.max_int ->
  0 <= maxWaitTime W <= 10 * time.Minute.
Proof.
  intros HC.
  assert (Hr : Int64.in_range (BlockingClientReadTimeout W)).
  { unfold Int64.in_range, Int64.min_int, Int64.max_int in *. lia. }
  unfold maxWaitTime.
  rewrite (sub_eighth _ Hr), ten_minutes.
  set (C := BlockingClientReadTimeout W) in *.
  assert (0 <= Z.quot C 8) by (apply Z.quot_pos; lia).
  assert (Z.quot C 8 <= C) by (apply Z.quot_le_upper_bound; lia).
  assert (Hs : time.Second = 1000000000) by reflexivity.
  assert (Hm : 10 * time.Minute = 600000000000) by reflexivity.
  rewrite Hm, Hs.
  destruct (Z.ltb_spec 600000000000 (C - Z.quot C 8));
    destruct (Z.ltb_spec 1000000000 (waitTime W));
    cbn [andb];
    match goal with
    | |- context [?a <? ?b] => destruct (Z.ltb_spec a b)
    | _ => idtac
    end; lia.
Qed.

End WaitTime.

(** ** Credentials and the config builder *)

Section Builder.

Context {F : Foreign} (W : World F).

(** C4. An explicit token, the empty one included, is returned as it is,
    with no error and without a look at the environment or at any file:
    the run performs no action at all, whatever the world is. *)
Theorem explicit_token_wins (t : string) :
  value (getToken W (Some t)) = Ok t
  /\ trace (getToken W (Some t)) = [].
Proof.
  unfold getToken, ret, value, trace. cbn [fst snd].
  split; reflexivity.
Qed.

(** C10. Whatever the tag-separator field holds, a build whose token,
    auth config, proxy auth config, client and datacenter are obtained
    returns a config, and the tag separator of that config is [","] when
    the field is unset (nil) and the value of the field, the empty
    string included, when it is set; and every config a build returns
    has that tag separator. *)
Theorem default_tag_separator (sdc : SDConfig F) (baseDir : string) :
  (forall token ac proxyAC client dc,
     value (getToken W (Token sdc)) = Ok token ->
     promauth_NewConfig W baseDir (fst (authArguments sdc token))
       (snd (authArguments sdc token)) (sdcTLSConfig sdc) = Ok ac ->
     ProxyClientConfig_NewConfig W (sdcProxyClientConfig sdc) baseDir = Ok proxyAC ->
     discoveryutils_NewClient W (normalizedServer sdc) ac (sdcProxyURL sdc) proxyAC
     = Ok client ->
     value (getDatacenter W client (Datacenter sdc)) = Ok dc ->
     exists cfg,
       value (newAPIConfig W sdc baseDir) = Ok cfg
       /\ tagSeparator cfg = match TagSeparator sdc with
                             | None => ","
                             | Some sep => sep
                             end)
  /\ (forall cfg,
        value (newAPIConfig W sdc baseDir) = Ok cfg ->
        tagSeparator cfg = match TagSeparator sdc with
                           | None => ","
                           | Some sep => sep
                           end).
Proof.
  split.
  - intros token ac proxyAC client dc Htoken Hac Hpac Hclient Hdc.
    unfold authArguments in Hac. unfold normalizedServer in Hclient.
    cbv zeta in Hclient.
    unfold newAPIConfig, bind, act, ret, value in *.
    destruct (getToken W (Token sdc)) as [t0 r0]. cbn [fst snd] in *. subst r0.
    destruct (0 <? Z.of_nat (String.length (Username sdc)));
      cbn [fst snd] in *; rewrite Hac; cbn [fst snd];
      rewrite Hpac; cbn [fst snd];
      rewrite Hclient; cbn [fst snd];
      destruct (getDatacenter W client (Datacenter sdc)) as [t4 r4];
      cbn [fst snd] in *; subst r4;
      eexists; split; reflexivity.
  - intros cfg H.
    run_build; try discriminate; inversion H; reflexivity.
Qed.

(** C5. With no explicit token and a token-file variable that names a
    file which cannot be read, [getToken] returns an error that names the
    file, the build returns that error, and the build has done nothing
    but read the variable and try the file: no watcher is produced. *)
Theorem token_file_failure_is_fatal
  (sdc : SDConfig F) (baseDir file : string) (cause : error) :
  Token sdc = None ->
  Getenv W "CONSUL_HTTP_TOKEN_FILE" = file ->
  file <> "" ->
  ReadFile W file = Err cause ->
  (exists e, value (getToken W (Token sdc)) = Err e /\ names_path e file
             /\ value (newAPIConfig W sdc baseDir) = Err e)
  /\ trace (newAPIConfig W sdc baseDir)
     = [EvGetenv "CONSUL_HTTP_TOKEN_FILE"; EvReadFile file]
  /\ watchersCreated (trace (newAPIConfig W sdc baseDir)) = 0%nat.
Proof.
  intros Htok Henv Hfile Hread.
  assert (Hne : String.eqb file "" = false) by (apply String.eqb_neq; assumption).
  unfold newAPIConfig, getToken, bind, act, ret, trace, value.
  rewrite Htok, Henv, Hne. cbn [negb fst snd app].
  rewrite Hread. cbn [fst snd app watchersCreated].
  split; [| split; reflexivity].
  eexists. split; [reflexivity |]. split; [| reflexivity].
  cbn. left. reflexivity.
Qed.

(** C6. When the descriptor has a user name, every auth config the build
    asks for carries basic auth with the descriptor's user name and
    password and an empty token, and for every token [getToken] resolves
    the build does ask for one: the resolved token is dropped. *)
Theorem basic_auth_precedence (sdc : SDConfig F) (baseDir token : string) :
  Username sdc <> "" ->
  value (getToken W (Token sdc)) = Ok token ->
  In (EvAuthNewConfig baseDir
        (Some {| ba_Username := Username sdc; ba_Password := Password sdc |})
        "" (sdcTLSConfig sdc))
     (trace (newAPIConfig W sdc baseDir))
  /\ forall dir ba tok tls,
       In (EvAuthNewConfig dir ba tok tls) (trace (newAPIConfig W sdc baseDir)) ->
       ba = Some {| ba_Username := Username sdc; ba_Password := Password sdc |}
       /\ tok = "".
Proof.
  intros Huser Htoken.
  assert (Hlen : (0 <? Z.of_nat (String.length (Username sdc))) = true).
  { destruct (Username sdc); [congruence | cbn; lia]. }
  split.
  - run_build; try discriminate; rewrite ?Hlen in *;
      repeat match goal with
             | H : (_, _) = (_, _) |- _ => inversion H; clear H; subst
             end;
      cbn; try discriminate; intuition auto.
  - intros dir ba tok tls Hin.
    run_build; rewrite ?Hlen in *;
      repeat match goal with
             | H : (_, _) = (_, _) |- _ => inversion H; clear H; subst
             end;
      cbn in Hin;
      repeat match goal with
             | H : _ \/ _ |- _ => destruct H
             | H : False |- _ => contradiction
             end;
      try discriminate;
      match goal with
      | H : EvAuthNewConfig _ _ _ _ = EvAuthNewConfig _ _ _ _ |- _ =>
          inversion H; subst; split; reflexivity
      end.
Qed.

(** The address every client of a build is made for, as [newAPIConfig]
    computes it. *)
Lemma newClient_address (sdc : SDConfig F) (baseDir a : string) ac pu pac :
  In (EvNewClient a ac pu pac) (trace (newAPIConfig W sdc baseDir)) ->
  a = (let apiServer := if String.eqb (Server sdc) "" then "localhost:8500" else Server sdc in
       if negb (strings.Contains apiServer "://")
       then ((if String.eqb (Scheme sdc) "" then "http" else Scheme sdc)
               ++ "://" ++ apiServer)%string
       else apiServer).
Proof.
  intros Hin.
  unfold newAPIConfig, getToken, getDatacenter, bind, act, ret, trace, value in Hin.
  cbv zeta.
  set (addr := if negb (strings.Contains _ "://") then _ else _) in *.
  clearbody addr.
  repeat (cbn [fst snd app negb] in Hin; try next_case);
    cbn in Hin;
    repeat match goal with
           | H : _ \/ _ |- _ => destruct H
           | H : False |- _ => contradiction
           end;
    try discriminate;
    match goal with
    | H : EvNewClient _ _ _ _ = EvNewClient _ _ _ _ |- _ => inversion H; reflexivity
    end.
Qed.

(** C7 (amended). Every client of a build is made for the normalized
    address: for an empty server it is ["localhost:8500"] behind the
    descriptor's scheme, or behind ["http"] when the scheme is empty; a
    server without ["://"] gets that scheme put in front; a server that
    contains ["://"] is left as it is. *)
Theorem server_address_normalization (sdc : SDConfig F) (baseDir a : string) ac pu pac :
  In (EvNewClient a ac pu pac) (trace (newAPIConfig W sdc baseDir)) ->
  (Server sdc = "" -> a = (schemeOrHTTP sdc ++ "://localhost:8500")%string)
  /\ (Server sdc <> "" -> strings.Contains (Server sdc) "://" = false ->
      a = (schemeOrHTTP sdc ++ "://" ++ Server sdc)%string)
  /\ (strings.Contains (Server sdc) "://" = true -> a = Server sdc).
Proof.
  intros Hin. apply newClient_address in Hin. cbv zeta in Hin.
  unfold schemeOrHTTP.
  repeat split.
  - intros Hs. rewrite Hs in Hin. exact Hin.
  - intros Hs Hc. apply String.eqb_neq in Hs. rewrite Hs, Hc in Hin. exact Hin.
  - intros Hc.
    destruct (String.eqb (Server sdc) "") eqn:Hs.
    + apply String.eqb_eq in Hs. rewrite Hs in Hc. discriminate.
    + rewrite Hc in Hin. exact Hin.
Qed.

(** [getDatacenter] with an explicit datacenter: no request, the value as
    it is. *)
Lemma getDatacenter_explicit (client : Client F) (dc : string) :
  dc <> "" -> getDatacenter W client dc = ([], Ok dc).
Proof.
  intros H. apply String.eqb_neq in H.
  unfold getDatacenter. rewrite H. reflexivity.
Qed.

(** [getDatacenter] without one: one request to the agent, whose failure
    or unreadable answer is the result. *)
Lemma getDatacenter_empty (client : Client F) :
  trace (getDatacenter W client "") = [EvGetAPIResponse client "/v1/agent/self"]
  /\ value (getDatacenter W client "")
     = match Client_GetAPIResponse W client "/v1/agent/self" with
       | Err err => Err (Errorf "cannot query consul agent info: %w" [ArgError err])
       | Ok data =>
           match parseAgent W data with
           | Err err => Err err
           | Ok a => Ok (Config_Datacenter a)
           end
       end.
Proof.
  unfold getDatacenter, bind, act, ret, trace, value. cbn [String.eqb negb].
  destruct (Client_GetAPIResponse W client "/v1/agent/self") as [data | err];
    [destruct (parseAgent W data) |]; split; reflexivity.
Qed.

(** C8. A build with an explicit datacenter never asks the agent and
    hands that datacenter to the watcher as it is. A build with an empty
    datacenter asks the agent at most once; once it has its HTTP client,
    that is, when it comes to resolve the datacenter, it asks exactly
    once, and a failure of that request, or of parsing its answer, makes
    the build return an error. The resolution itself, [getDatacenter],
    returns an explicit datacenter without any action and issues exactly
    one request for an empty one, through whatever client it is given. *)
Theorem datacenter_resolution (sdc : SDConfig F) (baseDir : string) :
  (Datacenter sdc <> "" ->
     selfDescribeRequests (trace (newAPIConfig W sdc baseDir)) = 0%nat
     /\ forall client sdc' dc,
          In (EvNewConsulWatcher client sdc' dc) (trace (newAPIConfig W sdc baseDir)) ->
          dc = Datacenter sdc)
  /\ (Datacenter sdc = "" ->
        (selfDescribeRequests (trace (newAPIConfig W sdc baseDir)) <= 1)%nat
        /\ forall a ac pu pac client,
             In (EvNewClient a ac pu pac) (trace (newAPIConfig W sdc baseDir)) ->
             discoveryutils_NewClient W a ac pu pac = Ok client ->
             selfDescribeRequests (trace (newAPIConfig W sdc baseDir)) = 1%nat
             /\ ((exists err, Client_GetAPIResponse W client "/v1/agent/self" = Err err)
                 \/ (exists data err,
                       Client_GetAPIResponse W client "/v1/agent/self" = Ok data
                       /\ parseAgent W data = Err err) ->
                 is_err (value (newAPIConfig W sdc baseDir)) = true))
  /\ (forall client,
        (forall dc, dc <> "" -> getDatacenter W client dc = ([], Ok dc))
        /\ trace (getDatacenter W client "")
           = [EvGetAPIResponse client "/v1/agent/self"]
        /\ selfDescribeRequests (trace (getDatacenter W client "")) = 1%nat
        /\ ((exists err, Client_GetAPIResponse W client "/v1/agent/self" = Err err)
            \/ (exists data err,
                  Client_GetAPIResponse W client "/v1/agent/self" = Ok data
                  /\ parseAgent W data = Err err) ->
            is_err (value (getDatacenter W client "")) = true)).
Proof.
  split; [| split].
  3:{ intros client.
      destruct (getDatacenter_empty client) as [Htrace Hvalue].
      split; [intros dc Hdc; apply getDatacenter_explicit; exact Hdc |].
      split; [exact Htrace |].
      split; [rewrite Htrace; reflexivity |].
      rewrite Hvalue.
      intros [[err Herr] | [data [err [Hdata Herr]]]].
      - rewrite Herr. reflexivity.
      - rewrite Hdata, Herr. reflexivity. }
  - intros Hdc. apply String.eqb_neq in Hdc.
    split.
    + run_build; rewrite ?Hdc in *; try discriminate; reflexivity.
    + intros client sdc' dc Hin.
      run_build; rewrite ?Hdc in *; try discriminate;
        cbn in Hin;
        repeat match goal with
               | H : _ \/ _ |- _ => destruct H
               | H : False |- _ => contradiction
               end;
        try discriminate;
        match goal with
        | H : EvNewConsulWatcher _ _ _ = EvNewConsulWatcher _ _ _ |- _ =>
            inversion H; subst
        end;
        repeat match goal with
               | H : (_, _) = (_, _) |- _ => inversion H; clear H; subst
               end;
        reflexivity.
  - intros Hdc. apply String.eqb_eq in Hdc.
    split.
    + run_build; rewrite ?Hdc in *; try discriminate; cbn; lia.
    + intros a ac pu pac client Hin Hclient.
      run_build; rewrite ?Hdc in *; try discriminate;
        cbn in Hin;
        repeat match goal with
               | H : _ \/ _ |- _ => destruct H
               | H : False |- _ => contradiction
               end;
        try discriminate;
        match goal with
        | H : EvNewClient _ _ _ _ = EvNewClient _ _ _ _ |- _ => inversion H; subst
        end;
        repeat match goal with
               | H : (_, _) = (_, _) |- _ => inversion H; clear H; subst
               end;
        cbn [String.append] in *;
        try congruence;
        (split; [reflexivity |]);
        intros [[err Herr] | [data [err [Hdata Herr]]]];
        try reflexivity; congruence.
Qed.

End Builder.

(** ** The blocking query executor *)

Lemma ParseInt_ok_nonempty (ind : string) (n : Z) :
  strconv.ParseInt ind = (n, None) -> (Z.of_nat (String.length ind) =? 0) = false.
Proof.
  destruct ind as [| c rest]; [discriminate |].
  intros _. cbn [String.length]. apply Z.eqb_neq. lia.
Qed.

Section Executor.

Context {F : Foreign} (W : World F).

(** [getMeta] on a header that parses: the index correction, without a
    log entry. *)
Lemma getMeta_parsed (path : string) (resp : Response F) (i n : Z) :
  strconv.ParseInt (Header_Peek W resp "X-Consul-Index") = (n, None) ->
  getMeta W path resp i = ([], if n <? 1 then 1 else if i >? n then 0 else n).
Proof.
  intros Hp. unfold getMeta. cbv zeta.
  rewrite (ParseInt_ok_nonempty _ _ Hp), Hp.
  destruct (n <? 1); [reflexivity |].
  destruct (i >? n); reflexivity.
Qed.

(** [getMeta] on an anomalous header: the index as it was, and one log
    entry. *)
Lemma getMeta_anomalous (path : string) (resp : Response F) (i : Z) :
  anomalous W resp ->
  value (getMeta W path resp i) = i
  /\ exists format args, trace (getMeta W path resp i) = [EvLogErrorf format args].
Proof.
  unfold anomalous, getMeta. cbv zeta.
  set (ind := Header_Peek W resp "X-Consul-Index").
  intros [Hempty | Herr].
  - rewrite Hempty. cbn. split; [reflexivity | eauto].
  - destruct (Z.of_nat (String.length ind) =? 0).
    + cbn. split; [reflexivity | eauto].
    + destruct (strconv.ParseInt ind) as [v [err |]].
      * cbn. split; [reflexivity | eauto].
      * cbn in Herr. congruence.
Qed.

Lemma inspect_anomalous (path : string) (resps : list (Response F)) (i : Z) :
  Forall (anomalous W) resps ->
  value (inspect W path resps i) = i
  /\ Forall is_log (trace (inspect W path resps i))
  /\ length (trace (inspect W path resps i)) = length resps.
Proof.
  induction 1 as [| resp rest Hresp Hrest IH].
  - cbn. repeat split. constructor.
  - destruct (getMeta_anomalous path resp i Hresp) as [Hv [format [args Ht]]].
    cbn [inspect]. unfold bind, trace, value in *.
    destruct (getMeta W path resp i) as [t1 i1]. cbn [fst snd] in Hv, Ht. subst i1 t1.
    destruct (inspect W path rest i) as [t2 i2]. cbn [fst snd] in *.
    destruct IH as [IHv [IHlog IHlen]].
    repeat split.
    + exact IHv.
    + constructor; [exists format, args; reflexivity | exact IHlog].
    + cbn. rewrite IHlen. reflexivity.
Qed.

(** C1. When the client hands one response to the callback and its
    freshness header parses as the index [n], the index that
    [getBlockingAPIResponse] returns for the prior index [i] is 1 if
    [n < 1], else 0 if [i > n], else [n]. This holds for every [i], the
    non-negative ones in particular, and whether or not the request then
    fails. *)
Theorem index_correction
  (client : Client F) (path : string) (i n : Z) (resp : Response F) (r : result string) :
  Client_GetBlockingAPIResponse W client (requestPath W path i) = ([resp], r) ->
  strconv.ParseInt (Header_Peek W resp "X-Consul-Index") = (n, None) ->
  snd (fst (value (getBlockingAPIResponse W client path i)))
  = if n <? 1 then 1 else if i >? n then 0 else n.
Proof.
  intros Hclient Hparse.
  unfold getBlockingAPIResponse. cbv zeta. rewrite Hclient.
  cbn [inspect]. rewrite (getMeta_parsed _ _ _ _ Hparse).
  unfold bind, act, ret, value. cbn [fst snd].
  destruct r; reflexivity.
Qed.

(** C2 (amended). When every response the client hands to the callback
    has an anomalous freshness header (absent, or rejected by
    [strconv.ParseInt]), [getBlockingAPIResponse] returns the index it
    was given; it returns the data and no error when the request itself
    succeeded, and the wrapped error of the request otherwise; and each
    anomaly leaves one log entry. *)
Theorem anomaly_tolerance
  (client : Client F) (path : string) (i : Z) (resps : list (Response F))
  (r : result string) :
  Client_GetBlockingAPIResponse W client (requestPath W path i) = (resps, r) ->
  Forall (anomalous W) resps ->
  value (getBlockingAPIResponse W client path i)
  = match r with
    | Ok data => (data, i, None)
    | Err err =>
        ("", i, Some (Errorf "cannot perform blocking Consul API request at %q: %w"
                             [ArgString (requestPath W path i); ArgError err]))
    end
  /\ exists logs,
       trace (getBlockingAPIResponse W client path i)
       = EvGetBlockingAPIResponse client (requestPath W path i) :: logs
       /\ Forall is_log logs
       /\ length logs = length resps.
Proof.
  intros Hclient Hanom.
  destruct (inspect_anomalous (requestPath W path i) resps i Hanom) as [Hv [Hlog Hlen]].
  unfold getBlockingAPIResponse. cbv zeta. rewrite Hclient.
  unfold bind, act, ret, trace, value in *.
  destruct (inspect W (requestPath W path i) resps i) as [t i'].
  cbn [fst snd] in *. subst i'.
  destruct r; cbn [fst snd app]; rewrite ?app_nil_r;
    (split; [reflexivity | exists t; repeat split; assumption]).
Qed.

End Executor.

(** ** The shape of the request *)

Lemma append_assoc (a b c : string) : ((a ++ b) ++ c = a ++ (b ++ c))%string.
Proof.
  induction a as [| x a IH]; cbn [String.append]; [reflexivity |].
  rewrite IH. reflexivity.
Qed.

Section Request.

Context {F : Foreign} (W : World F).

Lemma getMeta_logs (path : string) (resp : Response F) (i : Z) :
  Forall is_log (trace (getMeta W path resp i)).
Proof.
  unfold getMeta, bind, act, ret, trace. cbv zeta.
  destruct (Z.of_nat (String.length (Header_Peek W resp "X-Consul-Index")) =? 0).
  - cbn. constructor; [eexists; eexists; reflexivity | constructor].
  - destruct (strconv.ParseInt (Header_Peek W resp "X-Consul-Index")) as [v [err |]].
    + cbn. constructor; [eexists; eexists; reflexivity | constructor].
    + destruct (v <? 1); [constructor |].
      destruct (i >? v); constructor.
Qed.

(** The callback does nothing but log. *)
Lemma inspect_logs (path : string) (resps : list (Response F)) (i : Z) :
  Forall is_log (trace (inspect W path resps i)).
Proof.
  revert i. induction resps as [| resp rest IH]; intros i.
  - constructor.
  - cbn [inspect]. unfold bind, trace.
    pose proof (getMeta_logs path resp i) as Hm. unfold trace in Hm.
    destruct (getMeta W path resp i) as [t1 i1]. cbn [fst] in Hm.
    specialize (IH i1). unfold trace in IH.
    destruct (inspect W path rest i1) as [t2 i2]. cbn [fst] in *.
    apply Forall_app. split; assumption.
Qed.

(** C9. With a read timeout that is not negative, the path of the
    request is the given path followed by ["&index="], the index in
    decimal, ["&wait="], the whole seconds of the wait time and ["s"];
    the decimal notation of a 64-bit index reads back as that index; and
    [getBlockingAPIResponse] issues exactly one request, with that path,
    everything else it does being logging. *)
Theorem request_shape (client : Client F) (path : string) (index : Z) :
  0 <= BlockingClientReadTimeout W <= Int64.max_int ->
  requestPath W path index = requestShape path index (maxWaitTime W)
  /\ (Int64.in_range index ->
      strconv.ParseInt (strconv.FormatInt index) = (index, None))
  /\ exists logs,
       trace (getBlockingAPIResponse W client path index)
       = EvGetBlockingAPIResponse client (requestShape path index (maxWaitTime W)) :: logs
       /\ Forall is_log logs.
Proof.
  intros HC.
  pose proof (maxWaitTime_bounds W HC) as Hb.
  assert (Hwhole : Float64.to_int (Seconds (maxWaitTime W))
                   = Z.quot (maxWaitTime W) time.Second).
  { apply Seconds_whole.
    change (10 * time.Minute) with 600000000000 in Hb.
    change (1024 * time.Second) with 1024000000000. lia. }
  assert (Hpath : requestPath W path index = requestShape path index (maxWaitTime W)).
  { unfold requestPath, requestShape. cbv zeta. rewrite Hwhole.
    rewrite !append_assoc. reflexivity. }
  split; [exact Hpath |].
  split; [apply ParseInt_FormatInt |].
  unfold getBlockingAPIResponse. cbv zeta. rewrite Hpath.
  destruct (Client_GetBlockingAPIResponse W client
              (requestShape path index (maxWaitTime W))) as [resps r].
  pose proof (inspect_logs (requestShape path index (maxWaitTime W)) resps index) as Hlogs.
  unfold bind, act, ret, trace in *.
  destruct (inspect W (requestShape path index (maxWaitTime W)) resps index) as [t i'].
  cbn [fst] in Hlogs.
  exists t. split; [| exact Hlogs].
  destruct r; cbn [fst app]; rewrite app_nil_r; reflexivity.
Qed.

End Request.

(** ** Runs of the model in the sample world *)

(** The wait-time examples of the spec: a ceiling of 10 seconds gives
    8.75 seconds, a ceiling of 20 minutes is capped at 10 minutes, an
    override of 5 seconds is taken and one of half a second is not. *)
Example wait_ten_seconds :
  maxWaitTime (Runs.timed (10 * time.Second) 0) = 8750 * time.Millisecond.
Proof. reflexivity. Qed.

Example wait_capped :
  maxWaitTime (Runs.timed (20 * time.Minute) 0) = 10 * time.Minute.
Proof. reflexivity. Qed.

Example wait_override :
  maxWaitTime (Runs.timed (20 * time.Minute) (5 * time.Second)) = 5 * time.Second.
Proof. reflexivity. Qed.

Example wait_override_too_short :
  maxWaitTime (Runs.timed (20 * time.Minute) (500 * time.Millisecond)) = 10 * time.Minute.
Proof. reflexivity. Qed.

Example index_adopted :
  value (getBlockingAPIResponse (Sample.plain "12") "consul" Runs.services 7)
  = ("[]", 12, None).
Proof. reflexivity. Qed.

Example index_reset_to_one :
  value (getBlockingAPIResponse (Sample.plain "0") "consul" Runs.services 7)
  = ("[]", 1, None).
Proof. reflexivity. Qed.

Example index_rolled_back :
  value (getBlockingAPIResponse (Sample.plain "6") "consul" Runs.services 7)
  = ("[]", 0, None).
Proof. reflexivity. Qed.

Example address_with_scheme_unchanged :
  In (@EvNewClient Sample.F "https://consul.internal" (None, "") tt tt)
     (trace (newAPIConfig (Sample.plain "")
               (Sample.sdc "https://consul.internal" "" "dc1" "" "" None None) "")).
Proof. cbn. tauto. Qed.

Example agent_failure_aborts :
  value (newAPIConfig Runs.deaf (Sample.sdc "" "" "" "" "" None None) "")
  = Err (Errorf "cannot query consul agent info: %w"
                [ArgError (External "connection refused")])
  /\ watchersCreated
       (trace (newAPIConfig Runs.deaf (Sample.sdc "" "" "" "" "" None None) "")) = 0%nat.
Proof. split; reflexivity. Qed.

(** C1, at a run: prior index 7, header ["12"]. *)
Lemma index_correction_witness :
  snd (fst (value (getBlockingAPIResponse (Sample.plain "12") "consul" Runs.services 7)))
  = 12.
Proof.
  exact (index_correction (Sample.plain "12") "consul" Runs.services 7 12
           [("X-Consul-Index", "12")] (Ok "[]") eq_refl eq_refl).
Defined.

(** C2, at a run: an empty header leaves the index 7 alone. *)
Lemma anomaly_tolerance_witness :
  value (getBlockingAPIResponse (Sample.plain "") "consul" Runs.services 7)
  = ("[]", 7, None).
Proof.
  assert (Hanom : Forall (anomalous (Sample.plain ""))
                         ([[("X-Consul-Index", "")]] : list (Response Sample.F))).
  { constructor; [left; reflexivity | constructor]. }
  exact (proj1 (anomaly_tolerance (Sample.plain "") "consul" Runs.services 7
                  [[("X-Consul-Index", "")]] (Ok "[]") eq_refl Hanom)).
Defined.

(** C2 as stated fails: ["-5"] is not the notation of a non-negative
    integer, yet [strconv.ParseInt] reads it, and the index 7 becomes 1
    without a log entry. *)
Lemma negative_header_counterexample :
  ~ parses_nonneg "-5"
  /\ value (getBlockingAPIResponse (Sample.plain "-5") "consul" Runs.services 7)
     = ("[]", 1, None)
  /\ trace (getBlockingAPIResponse (Sample.plain "-5") "consul" Runs.services 7)
     = [@EvGetBlockingAPIResponse Sample.F "consul" "/v1/catalog/services?dc=dc1&index=7&wait=8s"].
Proof.
  split; [| split; reflexivity].
  intros [n [Hparse _]]. vm_compute in Hparse. discriminate Hparse.
Qed.

(** C3, at a run: a ceiling of 20 minutes and an override of 5 seconds. *)
Lemma maxWaitTime_spec_witness :
  maxWaitTime (Runs.timed (20 * time.Minute) (5 * time.Second)) = 5 * time.Second.
Proof.
  assert (Hrange : Int64.in_range
                     (BlockingClientReadTimeout
                        (Runs.timed (20 * time.Minute) (5 * time.Second)))).
  { vm_compute. split; discriminate. }
  exact (maxWaitTime_spec (Runs.timed (20 * time.Minute) (5 * time.Second)) Hrange).
Defined.

(** C5, at a run: the token file cannot be read. *)
Lemma token_file_failure_witness :
  trace (newAPIConfig Runs.unreadable (Sample.sdc "" "" "" "" "" None None) "")
  = [EvGetenv "CONSUL_HTTP_TOKEN_FILE"; EvReadFile "/etc/consul/token"].
Proof.
  assert (Hfile : "/etc/consul/token" <> "") by discriminate.
  exact (proj1 (proj2 (token_file_failure_is_fatal Runs.unreadable
                         (Sample.sdc "" "" "" "" "" None None) ""
                         "/etc/consul/token" (External "no such file or directory")
                         eq_refl eq_refl Hfile eq_refl))).
Defined.

(** C6, at a run: user name and password beside an explicit token. *)
Lemma basic_auth_precedence_witness :
  In (@EvAuthNewConfig Sample.F "" (Some {| ba_Username := "admin"; ba_Password := "secret" |})
                      "" None)
     (trace (newAPIConfig (Sample.plain "")
               (Sample.sdc "" "" "dc1" "admin" "secret" (Some "tok") None) "")).
Proof.
  assert (Huser : Username (Sample.sdc "" "" "dc1" "admin" "secret" (Some "tok") None) <> "")
    by discriminate.
  exact (proj1 (basic_auth_precedence (Sample.plain "")
                  (Sample.sdc "" "" "dc1" "admin" "secret" (Some "tok") None) "" "tok"
                  Huser eq_refl)).
Defined.

(** C7, at a run: ["localhost:8500"] with no scheme. *)
Lemma server_address_witness :
  "http://localhost:8500"
  = (schemeOrHTTP (Sample.sdc "localhost:8500" "" "dc1" "" "" None None)
       ++ "://" ++ Server (Sample.sdc "localhost:8500" "" "dc1" "" "" None None))%string.
Proof.
  assert (Hin : In (@EvNewClient Sample.F "http://localhost:8500" (None, "") tt tt)
                   (trace (newAPIConfig (Sample.plain "")
                             (Sample.sdc "localhost:8500" "" "dc1" "" "" None None) ""))).
  { cbn. tauto. }
  assert (Hserver : Server (Sample.sdc "localhost:8500" "" "dc1" "" "" None None) <> "")
    by discriminate.
  exact (proj1 (proj2 (server_address_normalization (Sample.plain "")
                         (Sample.sdc "localhost:8500" "" "dc1" "" "" None None) ""
                         "http://localhost:8500" (None, "") tt tt Hin))
               Hserver eq_refl).
Defined.

(** C7 as stated fails: an empty server with the scheme ["https"] gives
    an address that is not ["http://localhost:8500"]. *)
Lemma empty_server_counterexample :
  Server (Sample.sdc "" "https" "dc1" "" "" None None) = ""
  /\ In (@EvNewClient Sample.F "https://localhost:8500" (None, "") tt tt)
        (trace (newAPIConfig (Sample.plain "")
                  (Sample.sdc "" "https" "dc1" "" "" None None) ""))
  /\ "https://localhost:8500" <> "http://localhost:8500".
Proof.
  split; [reflexivity |]. split; [cbn; tauto | discriminate].
Qed.

(** C8, at a run: an empty datacenter and an agent that answers. *)
Lemma datacenter_resolution_witness :
  selfDescribeRequests
    (trace (newAPIConfig (Sample.plain "") (Sample.sdc "" "" "" "" "" None None) ""))
  = 1%nat.
Proof.
  assert (Hin : In (@EvNewClient Sample.F "http://localhost:8500" (None, "") tt tt)
                   (trace (newAPIConfig (Sample.plain "")
                             (Sample.sdc "" "" "" "" "" None None) ""))).
  { cbn. tauto. }
  exact (proj1 (proj2 (proj1 (proj2 (datacenter_resolution (Sample.plain "")
                                       (Sample.sdc "" "" "" "" "" None None) ""))
                             eq_refl)
                      "http://localhost:8500" (None, "") tt tt "http://localhost:8500"
                      Hin eq_refl)).
Defined.

(** A build stops at the first step that fails: when the token file
    cannot be read, the datacenter is never resolved and the agent is
    not asked. *)
Example token_failure_precedes_datacenter :
  selfDescribeRequests
    (trace (newAPIConfig Runs.unreadable (Sample.sdc "" "" "" "" "" None None) ""))
  = 0%nat
  /\ is_err (value (newAPIConfig Runs.unreadable
                      (Sample.sdc "" "" "" "" "" None None) "")) = true.
Proof. split; reflexivity. Qed.

(** C9, at a run: a read timeout of 10 seconds and the index 7. *)
Lemma request_shape_witness :
  requestPath (Sample.plain "") Runs.services 7
  = "/v1/catalog/services?dc=dc1&index=7&wait=8s".
Proof.
  assert (Htimeout : 0 <= BlockingClientReadTimeout (Sample.plain "") <= Int64.max_int).
  { vm_compute. split; discriminate. }
  exact (proj1 (request_shape (Sample.plain "") "consul" Runs.services 7 Htimeout)).
Defined.

(** The three cases of the tag separator, run through the whole build:
    unset, set, and set to the empty string. *)
Example tag_separator_unset :
  value (newAPIConfig (Sample.plain "") (Sample.sdc "" "" "" "" "" None None) "")
  = Ok (Build_apiConfig Sample.F "," "dc1").
Proof. reflexivity. Qed.

Example tag_separator_set :
  value (newAPIConfig (Sample.plain "") (Sample.sdc "" "" "" "" "" None (Some ";")) "")
  = Ok (Build_apiConfig Sample.F ";" "dc1").
Proof. reflexivity. Qed.

Example tag_separator_set_empty :
  value (newAPIConfig (Sample.plain "") (Sample.sdc "" "" "" "" "" None (Some "")) "")
  = Ok (Build_apiConfig Sample.F "" "dc1").
Proof. reflexivity. Qed.

(** C10, at a run: a descriptor whose tag separator is set to [";"]; the
    build returns a config, and its separator is [";"]. *)
Lemma default_tag_separator_witness :
  exists cfg,
    value (newAPIConfig (Sample.plain "")
             (Sample.sdc "" "" "" "" "" None (Some ";")) "") = Ok cfg
    /\ tagSeparator cfg = ";".
Proof.
  exact (proj1 (default_tag_separator (Sample.plain "")
                  (Sample.sdc "" "" "" "" "" None (Some ";")) "")
               "" (None, "") tt "http://localhost:8500" "dc1"
               eq_refl eq_refl eq_refl eq_refl eq_refl).
Defined.

(** * Further properties *)

(** ** The builder, stage by stage *)

Section Stages.

Context {F : Foreign} (W : World F).

(** [newAPIConfig], stage by stage: what it returns and what it has done
    when it returns. *)
Lemma newAPIConfig_stages (sdc : SDConfig F) (baseDir : string) :
  newAPIConfig W sdc baseDir =
  let t0 := trace (getToken W (Token sdc)) in
  match value (getToken W (Token sdc)) with
  | Err err => (t0, Err err)
  | Ok token =>
    let ba := fst (authArguments sdc token) in
    let tok := snd (authArguments sdc token) in
    let t1 := (t0 ++ [EvAuthNewConfig baseDir ba tok (sdcTLSConfig sdc)])%list in
    match promauth_NewConfig W baseDir ba tok (sdcTLSConfig sdc) with
    | Err err => (t1, Err (Errorf "cannot parse auth config: %w" [ArgError err]))
    | Ok ac =>
      let t2 := (t1 ++ [EvProxyNewConfig (sdcProxyClientConfig sdc) baseDir])%list in
      match ProxyClientConfig_NewConfig W (sdcProxyClientConfig sdc) baseDir with
      | Err err => (t2, Err (Errorf "cannot parse proxy auth config: %w" [ArgError err]))
      | Ok proxyAC =>
        let t3 := (t2 ++ [EvNewClient (normalizedServer sdc) ac (sdcProxyURL sdc) proxyAC])%list in
        match discoveryutils_NewClient W (normalizedServer sdc) ac (sdcProxyURL sdc) proxyAC with
        | Err err =>
            (t3, Err (Errorf "cannot create HTTP client for %q: %w"
                             [ArgString (normalizedServer sdc); ArgError err]))
        | Ok client =>
          let t4 := (t3 ++ trace (getDatacenter W client (Datacenter sdc)))%list in
          match value (getDatacenter W client (Datacenter sdc)) with
          | Err err => (t4, Err err)
          | Ok dc =>
              ((t4 ++ [EvNewConsulWatcher client sdc dc])%list,
               Ok {| tagSeparator := tagSeparatorOf sdc;
                     consulWatcherOf := newConsulWatcher W client sdc dc |})
          end
        end
      end
    end
  end.
Proof.
  unfold newAPIConfig, authArguments, normalizedServer, tagSeparatorOf.
  cbv zeta.
  set (addr := if negb (strings.Contains _ "://") then _ else _).
  unfold bind, act, ret, trace, value.
  destruct (getToken W (Token sdc)) as [t0 [token | err]]; cbn [fst snd];
    [| rewrite app_nil_r; reflexivity].
  destruct (0 <? Z.of_nat (String.length (Username sdc))); cbn [fst snd];
    (destruct (promauth_NewConfig W baseDir _ _ (sdcTLSConfig sdc)) as [ac | err];
     cbn [fst snd app]; [| rewrite ?app_nil_r; reflexivity];
     destruct (ProxyClientConfig_NewConfig W (sdcProxyClientConfig sdc) baseDir)
       as [proxyAC | err];
     cbn [fst snd app]; [| rewrite ?app_nil_r, <- ?app_assoc; reflexivity];
     destruct (discoveryutils_NewClient W addr ac (sdcProxyURL sdc) proxyAC)
       as [client | err];
     cbn [fst snd app]; [| rewrite ?app_nil_r, <- ?app_assoc; reflexivity];
     destruct (getDatacenter W client (Datacenter sdc)) as [t4 [dc | err]];
     cbn [fst snd app]; rewrite ?app_nil_r, <- ?app_assoc; reflexivity).
Qed.

End Stages.

Lemma watchersCreated_app {F : Foreign} (t1 t2 : list (Event F)) :
  watchersCreated (t1 ++ t2) = (watchersCreated t1 + watchersCreated t2)%nat.
Proof.
  induction t1 as [| e t1 IH]; [reflexivity |].
  destruct e; cbn [app watchersCreated]; rewrite IH; reflexivity.
Qed.

Lemma watchersCreated_none {F : Foreign} (t : list (Event F)) :
  (forall c s d, ~ In (EvNewConsulWatcher c s d) t) -> watchersCreated t = 0%nat.
Proof.
  induction t as [| e t IH]; intros H; [reflexivity |].
  destruct e; cbn [watchersCreated];
    try (apply IH; intros c s d Hin; apply (H c s d); right; exact Hin).
  exfalso. eapply H. left. reflexivity.
Qed.


Section BuilderMore.

Context {F : Foreign} (W : World F).

Lemma getToken_trace (token : option string) (e : Event F) :
  In e (trace (getToken W token)) -> is_env_read e.
Proof.
  unfold getToken, bind, act, ret, trace.
  destruct token as [t |]; [intros [] |].
  cbn [fst snd].
  destruct (negb (String.eqb (Getenv W "CONSUL_HTTP_TOKEN_FILE") "")).
  - destruct (ReadFile W (Getenv W "CONSUL_HTTP_TOKEN_FILE")); cbn;
      intros [<- | [<- | []]]; exact I.
  - cbn. intros [<- | [<- | []]]; exact I.
Qed.

Lemma getDatacenter_trace (client : Client F) (dc : string) (e : Event F) :
  In e (trace (getDatacenter W client dc)) ->
  dc = "" /\ e = EvGetAPIResponse client "/v1/agent/self".
Proof.
  unfold getDatacenter, bind, act, ret, trace.
  destruct (String.eqb_spec dc "") as [-> | Hne]; cbn [negb].
  - destruct (Client_GetAPIResponse W client "/v1/agent/self") as [data | err];
      [destruct (parseAgent W data) |]; cbn; intros [<- | []]; split; reflexivity.
  - intros [].
Qed.

(** X3. A build creates exactly one watcher when it returns a config and
    none when it returns an error. *)
Theorem one_watcher_per_config (sdc : SDConfig F) (baseDir : string) :
  watchersCreated (trace (newAPIConfig W sdc baseDir))
  = if is_err (value (newAPIConfig W sdc baseDir)) then 0%nat else 1%nat.
Proof.
  assert (Htok : watchersCreated (trace (getToken W (Token sdc))) = 0%nat).
  { apply watchersCreated_none. intros c s d Hin.
    apply getToken_trace in Hin. exact Hin. }
  assert (Hdc : forall client,
             watchersCreated (trace (getDatacenter W client (Datacenter sdc))) = 0%nat).
  { intros client. apply watchersCreated_none. intros c s d Hin.
    apply getDatacenter_trace in Hin. destruct Hin as [_ Hin]. discriminate Hin. }
  rewrite newAPIConfig_stages. cbv zeta.
  destruct (value (getToken W (Token sdc))) as [token | err];
    [| cbn [trace value fst snd is_err]; exact Htok].
  destruct (promauth_NewConfig W baseDir _ _ (sdcTLSConfig sdc)) as [ac | err];
    [| cbn [trace value fst snd is_err];
       rewrite watchersCreated_app, Htok; reflexivity].
  destruct (ProxyClientConfig_NewConfig W (sdcProxyClientConfig sdc) baseDir)
    as [proxyAC | err];
    [| cbn [trace value fst snd is_err];
       rewrite !watchersCreated_app, Htok; reflexivity].
  destruct (discoveryutils_NewClient W (normalizedServer sdc) ac (sdcProxyURL sdc) proxyAC)
    as [client | err];
    [| cbn [trace value fst snd is_err];
       rewrite !watchersCreated_app, Htok; reflexivity].
  destruct (value (getDatacenter W client (Datacenter sdc))) as [dc | err];
    cbn [trace value fst snd is_err];
    rewrite !watchersCreated_app, Htok, Hdc; reflexivity.
Qed.

(** X4. A build that returns a config has called each collaborator once,
    in the order of the source, and each call succeeded. *)
Theorem successful_build (sdc : SDConfig F) (baseDir : string) (cfg : apiConfig F) :
  value (newAPIConfig W sdc baseDir) = Ok cfg ->
  exists token ac proxyAC client dc,
    value (getToken W (Token sdc)) = Ok token
    /\ promauth_NewConfig W baseDir (fst (authArguments sdc token))
         (snd (authArguments sdc token)) (sdcTLSConfig sdc) = Ok ac
    /\ ProxyClientConfig_NewConfig W (sdcProxyClientConfig sdc) baseDir = Ok proxyAC
    /\ discoveryutils_NewClient W (normalizedServer sdc) ac (sdcProxyURL sdc) proxyAC
       = Ok client
    /\ value (getDatacenter W client (Datacenter sdc)) = Ok dc
    /\ cfg = {| tagSeparator := tagSeparatorOf sdc;
                consulWatcherOf := newConsulWatcher W client sdc dc |}
    /\ trace (newAPIConfig W sdc baseDir)
       = (trace (getToken W (Token sdc))
            ++ [EvAuthNewConfig baseDir (fst (authArguments sdc token))
                  (snd (authArguments sdc token)) (sdcTLSConfig sdc);
                EvProxyNewConfig (sdcProxyClientConfig sdc) baseDir;
                EvNewClient (normalizedServer sdc) ac (sdcProxyURL sdc) proxyAC]
            ++ trace (getDatacenter W client (Datacenter sdc))
            ++ [EvNewConsulWatcher client sdc dc])%list.
Proof.
  rewrite newAPIConfig_stages. cbv zeta.
  destruct (value (getToken W (Token sdc))) as [token | err]; [| discriminate].
  destruct (promauth_NewConfig W baseDir _ _ (sdcTLSConfig sdc)) as [ac | err] eqn:Hac;
    [| discriminate].
  destruct (ProxyClientConfig_NewConfig W (sdcProxyClientConfig sdc) baseDir)
    as [proxyAC | err] eqn:Hpac; [| discriminate].
  destruct (discoveryutils_NewClient W (normalizedServer sdc) ac (sdcProxyURL sdc) proxyAC)
    as [client | err] eqn:Hclient; [| discriminate].
  destruct (value (getDatacenter W client (Datacenter sdc))) as [dc | err] eqn:Hdc;
    [| discriminate].
  cbn [trace value fst snd]. intros Hcfg. inversion Hcfg; subst cfg.
  exists token, ac, proxyAC, client, dc.
  repeat split; try assumption.
  rewrite <- !app_assoc. reflexivity.
Qed.

(** X5. Without a user name the resolved token is the one the auth
    config is made of, and there is no basic auth. *)
Theorem token_reaches_auth_config (sdc : SDConfig F) (baseDir token : string) :
  Username sdc = "" ->
  value (getToken W (Token sdc)) = Ok token ->
  In (EvAuthNewConfig baseDir None token (sdcTLSConfig sdc))
     (trace (newAPIConfig W sdc baseDir))
  /\ forall dir ba tok tls,
       In (EvAuthNewConfig dir ba tok tls) (trace (newAPIConfig W sdc baseDir)) ->
       ba = None /\ tok = token.
Proof.
  intros Huser Htoken.
  assert (Hargs : authArguments sdc token = (None, token)).
  { unfold authArguments. rewrite Huser. reflexivity. }
  assert (Hshape : exists rest,
             trace (newAPIConfig W sdc baseDir)
             = (trace (getToken W (Token sdc))
                  ++ EvAuthNewConfig baseDir None token (sdcTLSConfig sdc) :: rest)%list
             /\ forall dir ba tok tls, ~ In (EvAuthNewConfig dir ba tok tls) rest).
  { rewrite newAPIConfig_stages. cbv zeta. rewrite Htoken, Hargs. cbn [fst snd].
    destruct (promauth_NewConfig W baseDir None token (sdcTLSConfig sdc)) as [ac | err].
    2:{ exists []. split; [reflexivity | intros ? ? ? ? []]. }
    destruct (ProxyClientConfig_NewConfig W (sdcProxyClientConfig sdc) baseDir)
      as [proxyAC | err].
    2:{ eexists. cbn [trace fst]. rewrite <- !app_assoc. cbn [app].
        split; [reflexivity |]. intros ? ? ? ? Hin. split_in; discriminate. }
    destruct (discoveryutils_NewClient W (normalizedServer sdc) ac (sdcProxyURL sdc) proxyAC)
      as [client | err].
    2:{ eexists. cbn [trace fst]. rewrite <- !app_assoc. cbn [app].
        split; [reflexivity |]. intros ? ? ? ? Hin. split_in; discriminate. }
    destruct (value (getDatacenter W client (Datacenter sdc))) as [dc | err];
      eexists; cbn [trace fst]; rewrite <- !app_assoc; cbn [app];
      (split; [reflexivity |]); intros ? ? ? ? Hin; split_in; try discriminate;
      apply getDatacenter_trace in Hin; destruct Hin as [_ Hin]; discriminate. }
  destruct Hshape as [rest [Htrace Hrest]]. rewrite Htrace.
  split.
  - apply in_or_app. right. left. reflexivity.
  - intros dir ba tok tls Hin. split_in.
    + apply getToken_trace in Hin. destruct Hin.
    + inversion Hin. split; reflexivity.
    + exfalso. eapply Hrest. exact Hin.
Qed.

End BuilderMore.

Lemma HasPrefix_append (p s : string) : strings.HasPrefix (p ++ s) p = true.
Proof.
  induction p as [| c p IH]; [destruct s; reflexivity |].
  cbn [String.append strings.HasPrefix]. rewrite Ascii.eqb_refl. exact IH.
Qed.

Lemma Contains_prefix (s sub : string) :
  strings.HasPrefix s sub = true -> strings.Contains s sub = true.
Proof.
  intros H. destruct s; cbn [strings.Contains]; rewrite H; reflexivity.
Qed.

Lemma Contains_append_r (a b sub : string) :
  strings.Contains b sub = true -> strings.Contains (a ++ b) sub = true.
Proof.
  intros H. induction a as [| c a IH]; [exact H |].
  cbn [String.append strings.Contains]. rewrite IH. apply orb_true_r.
Qed.

Lemma Contains_nonempty (s sub : string) :
  sub <> "" -> strings.Contains s sub = true -> s <> "".
Proof.
  intros Hsub H ->. destruct sub; [congruence | discriminate H].
Qed.

Lemma normalizedServer_separator {F : Foreign} (sdc : SDConfig F) :
  strings.Contains (normalizedServer sdc) "://" = true.
Proof.
  unfold normalizedServer. cbv zeta.
  destruct (strings.Contains (if String.eqb (Server sdc) "" then "localhost:8500"
                              else Server sdc) "://") eqn:Hc; cbn [negb].
  - exact Hc.
  - apply Contains_append_r. apply Contains_prefix. apply HasPrefix_append.
Qed.

Section BuilderOrder.

Context {F : Foreign} (W : World F).

Lemma getDatacenter_error (client : Client F) (dc : string) (e : error) :
  value (getDatacenter W client dc) = Err e ->
  dc = ""
  /\ ((exists cause,
         Client_GetAPIResponse W client "/v1/agent/self" = Err cause
         /\ e = Errorf "cannot query consul agent info: %w" [ArgError cause])
      \/ (exists data,
            Client_GetAPIResponse W client "/v1/agent/self" = Ok data
            /\ parseAgent W data = Err e)).
Proof.
  unfold getDatacenter, bind, act, ret, value.
  destruct (String.eqb_spec dc "") as [-> | Hne]; cbn [negb]; [| discriminate].
  destruct (Client_GetAPIResponse W client "/v1/agent/self") as [data | cause].
  - destruct (parseAgent W data) as [a | err] eqn:Hparse; cbn [fst snd]; [discriminate |].
    intros H. inversion H; subst. split; [reflexivity |]. right. eauto.
  - cbn [fst snd]. intros H. inversion H; subst. split; [reflexivity |]. left. eauto.
Qed.

(** X6. Every error a build returns is the error of [getToken], or one of
    the three wrapped errors of the auth config, the proxy auth config
    and the client (the last names the normalized address), or the
    wrapped error of the agent request, or the error of [parseAgent] as
    it is. *)
Theorem build_errors (sdc : SDConfig F) (baseDir : string) (e : error) :
  value (newAPIConfig W sdc baseDir) = Err e -> BuildError W sdc baseDir e.
Proof.
  rewrite newAPIConfig_stages. cbv zeta.
  destruct (value (getToken W (Token sdc))) as [token | err] eqn:Htoken.
  2:{ cbn [value snd]. intros H. inversion H; subst. apply TokenError. exact Htoken. }
  destruct (promauth_NewConfig W baseDir _ _ (sdcTLSConfig sdc)) as [ac | err] eqn:Hac.
  2:{ cbn [value snd]. intros H. inversion H; subst.
      apply (AuthConfigError W sdc baseDir token); assumption. }
  destruct (ProxyClientConfig_NewConfig W (sdcProxyClientConfig sdc) baseDir)
    as [proxyAC | err] eqn:Hpac.
  2:{ cbn [value snd]. intros H. inversion H; subst.
      apply ProxyConfigError. exact Hpac. }
  destruct (discoveryutils_NewClient W (normalizedServer sdc) ac (sdcProxyURL sdc) proxyAC)
    as [client | err] eqn:Hclient.
  2:{ cbn [value snd]. intros H. inversion H; subst.
      apply (ClientError W sdc baseDir ac proxyAC). exact Hclient. }
  destruct (value (getDatacenter W client (Datacenter sdc))) as [dc | err] eqn:Hdc;
    cbn [value snd]; intros H; inversion H; subst.
  apply getDatacenter_error in Hdc.
  destruct Hdc as [Hempty [[cause [Hreq ->]] | [data [Hreq Hparse]]]].
  - apply (AgentRequestError W sdc baseDir client); assumption.
  - apply (AgentParseError W sdc baseDir client data); assumption.
Qed.

(** X7. A build makes a client only from the two auth configs it has
    built, for the normalized address and the descriptor's proxy; and it
    asks the agent only through a client it has made, only for the
    self-describe path, and only when the descriptor has no datacenter. *)
Theorem build_call_order (sdc : SDConfig F) (baseDir : string) :
  (forall a ac pu pac,
     In (EvNewClient a ac pu pac) (trace (newAPIConfig W sdc baseDir)) ->
     a = normalizedServer sdc /\ pu = sdcProxyURL sdc
     /\ ProxyClientConfig_NewConfig W (sdcProxyClientConfig sdc) baseDir = Ok pac
     /\ exists token,
          value (getToken W (Token sdc)) = Ok token
          /\ promauth_NewConfig W baseDir (fst (authArguments sdc token))
               (snd (authArguments sdc token)) (sdcTLSConfig sdc) = Ok ac)
  /\ (forall c p,
        In (EvGetAPIResponse c p) (trace (newAPIConfig W sdc baseDir)) ->
        p = "/v1/agent/self" /\ Datacenter sdc = ""
        /\ exists ac pac,
             discoveryutils_NewClient W (normalizedServer sdc) ac (sdcProxyURL sdc) pac
             = Ok c).
Proof.
  rewrite newAPIConfig_stages. cbv zeta.
  assert (Htok : forall e, In e (trace (getToken W (Token sdc))) -> is_env_read e)
    by (intros e; apply getToken_trace).
  destruct (value (getToken W (Token sdc))) as [token | err] eqn:Htoken.
  2:{ cbn [trace fst]. split; intros; exfalso;
        match goal with H : In _ _ |- _ => apply Htok in H; exact H end. }
  destruct (promauth_NewConfig W baseDir _ _ (sdcTLSConfig sdc)) as [ac | err] eqn:Hac.
  2:{ cbn [trace fst]. split; intros; exfalso; split_in;
        try discriminate;
        match goal with H : In _ _ |- _ => apply Htok in H; exact H end. }
  destruct (ProxyClientConfig_NewConfig W (sdcProxyClientConfig sdc) baseDir)
    as [proxyAC | err] eqn:Hpac.
  2:{ cbn [trace fst]. split; intros; exfalso; split_in;
        try discriminate;
        match goal with H : In _ _ |- _ => apply Htok in H; exact H end. }
  destruct (discoveryutils_NewClient W (normalizedServer sdc) ac (sdcProxyURL sdc) proxyAC)
    as [client | err] eqn:Hclient.
  2:{ cbn [trace fst]. split; intros; split_in; try discriminate;
        try (exfalso; match goal with H : In _ _ |- _ => apply Htok in H; exact H end).
      match goal with H : EvNewClient _ _ _ _ = EvNewClient _ _ _ _ |- _ =>
        inversion H; subst end.
      repeat split; try reflexivity; eauto. }
  assert (Hdcs : forall e, In e (trace (getDatacenter W client (Datacenter sdc))) ->
                           Datacenter sdc = ""
                           /\ e = EvGetAPIResponse client "/v1/agent/self")
    by (intros e; apply getDatacenter_trace).
  destruct (value (getDatacenter W client (Datacenter sdc))) as [dc | err];
    cbn [trace fst]; split; intros; split_in; try discriminate;
    try (exfalso; match goal with H : In _ _ |- _ => apply Htok in H; exact H end);
    try match goal with H : EvNewClient _ _ _ _ = EvNewClient _ _ _ _ |- _ =>
          inversion H; subst; repeat split; try reflexivity; eauto
        end;
    match goal with H : In _ (trace (getDatacenter _ _ _)) |- _ =>
      apply Hdcs in H; destruct H as [Hempty Hev]
    end;
    try discriminate;
    inversion Hev; subst; repeat split; try assumption; eauto.
Qed.

(** X8. The address of every client of a build contains ["://"]. *)
Theorem client_address_has_scheme (sdc : SDConfig F) (baseDir a : string) ac pu pac :
  In (EvNewClient a ac pu pac) (trace (newAPIConfig W sdc baseDir)) ->
  strings.Contains a "://" = true.
Proof.
  intros Hin. apply newClient_address in Hin. cbv zeta in Hin.
  rewrite Hin. apply (normalizedServer_separator sdc).
Qed.

(** X10. The watcher of a build is made for the build's descriptor, the
    client the build made and the datacenter [getDatacenter] returned;
    when the descriptor has no datacenter, that is the datacenter in the
    agent's answer. *)
Theorem watcher_arguments (sdc : SDConfig F) (baseDir : string) c s dc :
  In (EvNewConsulWatcher c s dc) (trace (newAPIConfig W sdc baseDir)) ->
  s = sdc
  /\ value (getDatacenter W c (Datacenter sdc)) = Ok dc
  /\ (exists ac pac,
        discoveryutils_NewClient W (normalizedServer sdc) ac (sdcProxyURL sdc) pac = Ok c)
  /\ (Datacenter sdc = "" ->
      exists data agent,
        Client_GetAPIResponse W c "/v1/agent/self" = Ok data
        /\ parseAgent W data = Ok agent
        /\ dc = Config_Datacenter agent).
Proof.
  rewrite newAPIConfig_stages. cbv zeta.
  assert (Htok : forall e, In e (trace (getToken W (Token sdc))) -> is_env_read e)
    by (intros e; apply getToken_trace).
  destruct (value (getToken W (Token sdc))) as [token | err] eqn:Htoken.
  2:{ cbn [trace fst]. intros Hin. apply Htok in Hin. destruct Hin. }
  destruct (promauth_NewConfig W baseDir _ _ (sdcTLSConfig sdc)) as [ac | err] eqn:Hac.
  2:{ cbn [trace fst]. intros Hin. split_in; try discriminate.
      apply Htok in Hin. destruct Hin. }
  destruct (ProxyClientConfig_NewConfig W (sdcProxyClientConfig sdc) baseDir)
    as [proxyAC | err] eqn:Hpac.
  2:{ cbn [trace fst]. intros Hin. split_in; try discriminate.
      apply Htok in Hin. destruct Hin. }
  destruct (discoveryutils_NewClient W (normalizedServer sdc) ac (sdcProxyURL sdc) proxyAC)
    as [client | err] eqn:Hclient.
  2:{ cbn [trace fst]. intros Hin. split_in; try discriminate.
      apply Htok in Hin. destruct Hin. }
  destruct (value (getDatacenter W client (Datacenter sdc))) as [dc' | err] eqn:Hdc;
    cbn [trace fst]; intros Hin; split_in; try discriminate;
    try (apply Htok in Hin; destruct Hin);
    try (apply getDatacenter_trace in Hin; destruct Hin as [_ Hin]; discriminate).
  inversion Hin; subst.
  repeat split; eauto.
  intros Hempty. rewrite Hempty in Hdc.
  destruct (getDatacenter_empty W c) as [_ Hv]. rewrite Hv in Hdc.
  destruct (Client_GetAPIResponse W c "/v1/agent/self") as [data | cause];
    [| discriminate].
  destruct (parseAgent W data) as [agent | err] eqn:Hparse; [| discriminate].
  inversion Hdc; subst. eauto.
Qed.

End BuilderOrder.

(** X9. Normalizing is idempotent: a descriptor whose server is the
    address some build made its client for gets a client for that same
    address, whatever its other fields are and in any world. *)
Theorem normalization_idempotent {F : Foreign} (W W' : World F) (sdc sdc' : SDConfig F)
  (baseDir baseDir' a a' : string) ac pu pac ac' pu' pac' :
  In (EvNewClient a ac pu pac) (trace (newAPIConfig W sdc baseDir)) ->
  Server sdc' = a ->
  In (EvNewClient a' ac' pu' pac') (trace (newAPIConfig W' sdc' baseDir')) ->
  a' = a.
Proof.
  intros Hin Hserver Hin'.
  assert (Hsep : strings.Contains a "://" = true).
  { apply newClient_address in Hin. cbv zeta in Hin.
    rewrite Hin. apply (normalizedServer_separator sdc). }
  apply newClient_address in Hin'. cbv zeta in Hin'.
  rewrite Hserver in Hin'.
  assert (Hne : String.eqb a "" = false).
  { apply String.eqb_neq. apply (Contains_nonempty a "://"); [discriminate | exact Hsep]. }
  rewrite Hne, Hsep in Hin'. exact Hin'.
Qed.

(** ** More on the credential resolver *)

Section TokenMore.

Context {F : Foreign} (W : World F).

(** X1. [getToken] fails in one case only: there is no explicit token, the
    token-file variable is not empty, and the file it names cannot be
    read; the error then names that file and wraps the cause. *)
Theorem getToken_error_iff (token : option string) (e : error) :
  value (getToken W token) = Err e <->
  token = None
  /\ Getenv W "CONSUL_HTTP_TOKEN_FILE" <> ""
  /\ exists cause,
       ReadFile W (Getenv W "CONSUL_HTTP_TOKEN_FILE") = Err cause
       /\ e = Errorf
                "cannot read consul token file %q; probably, `token` arg is missing in `consul_sd_config`? error: %w"
                [ArgString (Getenv W "CONSUL_HTTP_TOKEN_FILE"); ArgError cause].
Proof.
  unfold getToken, bind, act, ret, value.
  destruct token as [t |]; cbn [fst snd].
  - split; [discriminate | intros [H _]; discriminate H].
  - destruct (String.eqb_spec (Getenv W "CONSUL_HTTP_TOKEN_FILE") "") as [Hempty | Hfile];
      cbn [negb fst snd].
    + split; [discriminate | intros [_ [H _]]; contradiction].
    + destruct (ReadFile W (Getenv W "CONSUL_HTTP_TOKEN_FILE")) as [data | cause];
        cbn [fst snd].
      * split; [discriminate | intros [_ [_ [cause [H _]]]]; discriminate H].
      * split.
        -- intros H. inversion H; subst. repeat split; try assumption.
           exists cause. split; reflexivity.
        -- intros [_ [_ [cause' [Hc ->]]]]. inversion Hc; subst. reflexivity.
Qed.

(** X2. Without an explicit token, a token file named by the environment
    wins over the token variable, which is then not even read; the token
    variable is used, whatever it holds, only when the token-file
    variable is empty, and then no file is read. *)
Theorem getToken_environment :
  (forall file data,
     Getenv W "CONSUL_HTTP_TOKEN_FILE" = file -> file <> "" ->
     ReadFile W file = Ok data ->
     getToken W None = ([EvGetenv "CONSUL_HTTP_TOKEN_FILE"; EvReadFile file], Ok data))
  /\ (Getenv W "CONSUL_HTTP_TOKEN_FILE" = "" ->
      getToken W None
      = ([EvGetenv "CONSUL_HTTP_TOKEN_FILE"; EvGetenv "CONSUL_HTTP_TOKEN"],
         Ok (Getenv W "CONSUL_HTTP_TOKEN"))).
Proof.
  unfold getToken, bind, act, ret. split.
  - intros file data Henv Hfile Hread. cbn [fst snd].
    rewrite Henv. apply String.eqb_neq in Hfile. rewrite Hfile. cbn [negb].
    rewrite Hread. reflexivity.
  - intros Henv. cbn [fst snd]. rewrite Henv. reflexivity.
Qed.

End TokenMore.

(** ** More on the blocking query executor and the wait time *)

Lemma wrap_range (z : Z) : Int64.in_range (Int64.wrap z).
Proof.
  unfold Int64.in_range, Int64.min_int, Int64.max_int, Int64.wrap.
  change (2 ^ 64) with 18446744073709551616.
  change (2 ^ 63) with 9223372036854775808.
  pose proof (Z.mod_pos_bound (z + 9223372036854775808) 18446744073709551616
                ltac:(reflexivity)) as H.
  lia.
Qed.

(** What [ParseInt] returns without an error is a 64-bit integer. *)
Lemma ParseInt_in_range (s : string) (n : Z) :
  strconv.ParseInt s = (n, None) -> Int64.in_range n.
Proof.
  unfold strconv.ParseInt. destruct s as [| c0 rest]; [discriminate |].
  cbv zeta.
  destruct (strconv.ParseUint _) as [un [[] |]]; try discriminate;
    destruct (negb (Ascii.eqb c0 "-") && (2 ^ 63 <=? un)); try discriminate;
    destruct (Ascii.eqb c0 "-" && (2 ^ 63 <? un)); try discriminate;
    intros H; inversion H; destruct (Ascii.eqb c0 "-"); apply wrap_range.
Qed.

Section ExecutorMore.

Context {F : Foreign} (W : World F).

Lemma getMeta_value_cases (path : string) (resp : Response F) (i : Z) :
  value (getMeta W path resp i) = i
  \/ exists n,
       strconv.ParseInt (Header_Peek W resp "X-Consul-Index") = (n, None)
       /\ value (getMeta W path resp i) = if n <? 1 then 1 else if i >? n then 0 else n.
Proof.
  unfold getMeta, bind, act, ret, value. cbv zeta.
  destruct (Z.of_nat (String.length (Header_Peek W resp "X-Consul-Index")) =? 0);
    [left; reflexivity |].
  destruct (strconv.ParseInt (Header_Peek W resp "X-Consul-Index")) as [n [err |]];
    [left; reflexivity |].
  right. exists n. split; [reflexivity |].
  destruct (n <? 1); [reflexivity |]. destruct (i >? n); reflexivity.
Qed.

Lemma getMeta_valid (path : string) (resp : Response F) (i : Z) :
  0 <= i <= Int64.max_int -> 0 <= value (getMeta W path resp i) <= Int64.max_int.
Proof.
  intros Hi.
  destruct (getMeta_value_cases path resp i) as [-> | [n [Hparse ->]]]; [exact Hi |].
  apply ParseInt_in_range in Hparse.
  unfold Int64.in_range, Int64.min_int, Int64.max_int in *.
  destruct (Z.ltb_spec n 1); [lia |].
  destruct (Z.gtb_spec i n); lia.
Qed.

Lemma inspect_valid (path : string) (resps : list (Response F)) (i : Z) :
  0 <= i <= Int64.max_int -> 0 <= value (inspect W path resps i) <= Int64.max_int.
Proof.
  revert i. induction resps as [| resp rest IH]; intros i Hi; [exact Hi |].
  cbn [inspect]. unfold bind, value.
  pose proof (getMeta_valid path resp i Hi) as Hm. unfold value in Hm.
  destruct (getMeta W path resp i) as [t1 i1]. cbn [snd] in Hm.
  specialize (IH i1 Hm). unfold value in IH.
  destruct (inspect W path rest i1) as [t2 i2]. exact IH.
Qed.

(** The index a call returns is the index after the callback ran on the
    responses of the client. *)
Lemma returned_index (client : Client F) (path : string) (i : Z) :
  snd (fst (value (getBlockingAPIResponse W client path i)))
  = value (inspect W (requestPath W path i)
             (fst (Client_GetBlockingAPIResponse W client (requestPath W path i))) i).
Proof.
  unfold getBlockingAPIResponse. cbv zeta.
  destruct (Client_GetBlockingAPIResponse W client (requestPath W path i)) as [resps r].
  unfold bind, act, ret, value. cbn [fst snd].
  destruct (inspect W (requestPath W path i) resps i) as [t i'].
  destruct r; reflexivity.
Qed.

(** X11. Whatever the client does, a call that is given a non-negative
    64-bit index returns a non-negative 64-bit index. *)
Theorem index_stays_valid (client : Client F) (path : string) (i : Z) :
  0 <= i <= Int64.max_int ->
  0 <= snd (fst (value (getBlockingAPIResponse W client path i))) <= Int64.max_int.
Proof.
  intros Hi. rewrite returned_index. apply inspect_valid. exact Hi.
Qed.

(** X12. When the client hands one response to the callback, the index
    never goes down except to 0 or 1. *)
Theorem index_monotone_or_reset
  (client : Client F) (path : string) (i : Z) (resp : Response F) (r : result string) :
  Client_GetBlockingAPIResponse W client (requestPath W path i) = ([resp], r) ->
  snd (fst (value (getBlockingAPIResponse W client path i))) = 0
  \/ snd (fst (value (getBlockingAPIResponse W client path i))) = 1
  \/ i <= snd (fst (value (getBlockingAPIResponse W client path i))).
Proof.
  intros Hclient. rewrite returned_index, Hclient. cbn [fst inspect].
  unfold bind, ret, value.
  destruct (getMeta_value_cases (requestPath W path i) resp i) as [Hv | [n [_ Hv]]];
    unfold value in Hv;
    destruct (getMeta W (requestPath W path i) resp i) as [t1 i1];
    cbn [fst snd] in *; subst i1.
  - right. right. lia.
  - destruct (Z.ltb_spec n 1); [right; left; reflexivity |].
    destruct (Z.gtb_spec i n); [left; reflexivity | right; right; lia].
Qed.

(** X13. A response that echoes the index of the request leaves a positive
    64-bit index as it is, turns 0 into 1, and logs nothing. *)
Theorem index_echo
  (client : Client F) (path : string) (i : Z) (resp : Response F) (r : result string) :
  0 <= i <= Int64.max_int ->
  Client_GetBlockingAPIResponse W client (requestPath W path i) = ([resp], r) ->
  Header_Peek W resp "X-Consul-Index" = strconv.FormatInt i ->
  snd (fst (value (getBlockingAPIResponse W client path i))) = Z.max i 1
  /\ trace (getBlockingAPIResponse W client path i)
     = [EvGetBlockingAPIResponse client (requestPath W path i)].
Proof.
  intros Hi Hclient Hheader.
  assert (Hparse : strconv.ParseInt (Header_Peek W resp "X-Consul-Index") = (i, None)).
  { rewrite Hheader. apply ParseInt_FormatInt.
    unfold Int64.in_range, Int64.min_int, Int64.max_int in *. lia. }
  unfold getBlockingAPIResponse. cbv zeta. rewrite Hclient.
  cbn [inspect]. rewrite (getMeta_parsed W _ _ _ _ Hparse).
  unfold bind, act, ret, value, trace. cbn [fst snd app].
  assert (Hnext : (if i <? 1 then 1 else if i >? i then 0 else i) = Z.max i 1).
  { destruct (Z.ltb_spec i 1); [lia |]. destruct (Z.gtb_spec i i); lia. }
  rewrite Hnext. destruct r; split; reflexivity.
Qed.

(** X14. When the client returns an error, the call returns no data and
    an error that names the request path, query parameters included, and
    wraps the client's error. *)
Theorem request_failure
  (client : Client F) (path : string) (i : Z) (resps : list (Response F)) (cause : error) :
  Client_GetBlockingAPIResponse W client (requestPath W path i) = (resps, Err cause) ->
  fst (fst (value (getBlockingAPIResponse W client path i))) = ""
  /\ snd (value (getBlockingAPIResponse W client path i))
     = Some (Errorf "cannot perform blocking Consul API request at %q: %w"
                    [ArgString (requestPath W path i); ArgError cause])
  /\ exists e, snd (value (getBlockingAPIResponse W client path i)) = Some e
               /\ names_path e (requestPath W path i).
Proof.
  intros Hclient. unfold getBlockingAPIResponse. cbv zeta. rewrite Hclient.
  unfold bind, act, ret, value.
  destruct (inspect W (requestPath W path i) resps i) as [t i'].
  cbn [fst snd]. repeat split.
  eexists. split; [reflexivity |]. cbn. left. reflexivity.
Qed.

Lemma getMeta_log_count (path : string) (resp : Response F) (i : Z) :
  length (trace (getMeta W path resp i))
  = if anomalousb W resp then 1%nat else 0%nat.
Proof.
  unfold getMeta, anomalousb, bind, act, ret, trace. cbv zeta.
  destruct (Z.of_nat (String.length (Header_Peek W resp "X-Consul-Index")) =? 0);
    [reflexivity |].
  cbn [orb].
  destruct (strconv.ParseInt (Header_Peek W resp "X-Consul-Index")) as [n [err |]];
    [reflexivity |].
  cbn [snd]. destruct (n <? 1); [reflexivity |]. destruct (i >? n); reflexivity.
Qed.

Lemma inspect_log_count (path : string) (resps : list (Response F)) (i : Z) :
  length (trace (inspect W path resps i)) = length (filter (anomalousb W) resps).
Proof.
  revert i. induction resps as [| resp rest IH]; intros i; [reflexivity |].
  cbn [inspect filter]. unfold bind, trace.
  pose proof (getMeta_log_count path resp i) as Hm. unfold trace in Hm.
  destruct (getMeta W path resp i) as [t1 i1]. cbn [fst] in Hm.
  specialize (IH i1). unfold trace in IH.
  destruct (inspect W path rest i1) as [t2 i2]. cbn [fst] in *.
  rewrite length_app, Hm, IH.
  destruct (anomalousb W resp); reflexivity.
Qed.

(** X15. A call logs once for each response whose header is empty or does
    not parse, and not at all for the others: its trace is the request
    followed by that many log entries. *)
Theorem log_per_anomaly (client : Client F) (path : string) (i : Z) :
  exists logs,
    trace (getBlockingAPIResponse W client path i)
    = EvGetBlockingAPIResponse client (requestPath W path i) :: logs
    /\ Forall is_log logs
    /\ length logs
       = length (filter (anomalousb W)
                   (fst (Client_GetBlockingAPIResponse W client (requestPath W path i)))).
Proof.
  unfold getBlockingAPIResponse. cbv zeta.
  destruct (Client_GetBlockingAPIResponse W client (requestPath W path i)) as [resps r].
  pose proof (inspect_logs W (requestPath W path i) resps i) as Hlogs.
  pose proof (inspect_log_count (requestPath W path i) resps i) as Hcount.
  unfold bind, act, ret, trace in *.
  destruct (inspect W (requestPath W path i) resps i) as [t i'].
  cbn [fst] in *.
  exists t. repeat split; try assumption.
  destruct r; cbn [fst app]; rewrite app_nil_r; reflexivity.
Qed.

(** X16. Two calls in a row, the second with the index the first returned,
    whose responses both carry the same index [n >= 1], end at [n],
    whatever the index before the first call was. *)
Theorem two_polls_converge
  (client : Client F) (path : string) (i n : Z) (resp1 resp2 : Response F)
  (r1 r2 : result string) :
  1 <= n ->
  Client_GetBlockingAPIResponse W client (requestPath W path i) = ([resp1], r1) ->
  strconv.ParseInt (Header_Peek W resp1 "X-Consul-Index") = (n, None) ->
  Client_GetBlockingAPIResponse W client
    (requestPath W path (snd (fst (value (getBlockingAPIResponse W client path i)))))
  = ([resp2], r2) ->
  strconv.ParseInt (Header_Peek W resp2 "X-Consul-Index") = (n, None) ->
  snd (fst (value (getBlockingAPIResponse W client path
                     (snd (fst (value (getBlockingAPIResponse W client path i)))))))
  = n.
Proof.
  intros Hn Hc1 Hp1 Hc2 Hp2.
  set (i1 := snd (fst (value (getBlockingAPIResponse W client path i)))) in *.
  assert (Hi1 : i1 = if n <? 1 then 1 else if i >? n then 0 else n).
  { unfold i1. rewrite returned_index, Hc1. cbn [fst inspect].
    rewrite (getMeta_parsed W _ _ _ _ Hp1). reflexivity. }
  rewrite returned_index, Hc2. cbn [fst inspect].
  rewrite (getMeta_parsed W _ _ _ _ Hp2).
  unfold bind, ret, value. cbn [snd].
  rewrite Hi1.
  destruct (Z.ltb_spec n 1); [lia |].
  destruct (Z.gtb_spec i n); destruct (Z.gtb_spec 0 n); try lia;
    try reflexivity.
  destruct (Z.gtb_spec n n); [lia | reflexivity].
Qed.

(** X17. With a read timeout that is not negative, the wait time is between
    0 and 10 minutes, and even with the delay of up to a sixteenth that
    Consul adds it stays within the read timeout. *)
Theorem wait_time_headroom :
  0 <= BlockingClientReadTimeout W <= Int64.max_int ->
  0 <= maxWaitTime W <= 10 * time.Minute
  /\ maxWaitTime W + Z.quot (maxWaitTime W) 16 <= BlockingClientReadTimeout W.
Proof.
  intros HC.
  pose proof (maxWaitTime_bounds W HC) as Hb.
  split; [exact Hb |].
  assert (Hr : Int64.in_range (BlockingClientReadTimeout W)).
  { unfold Int64.in_range, Int64.min_int, Int64.max_int in *. lia. }
  assert (Hle : maxWaitTime W
                <= BlockingClientReadTimeout W - Z.quot (BlockingClientReadTimeout W) 8).
  { unfold maxWaitTime. rewrite (sub_eighth _ Hr), ten_minutes.
    set (d := BlockingClientReadTimeout W - Z.quot (BlockingClientReadTimeout W) 8).
    destruct (Z.ltb_spec (10 * time.Minute) d);
      destruct (Z.ltb_spec time.Second (waitTime W)); cbn [andb];
      try match goal with
          | |- context [?a <? ?b] => destruct (Z.ltb_spec a b)
          end; lia. }
  set (C := BlockingClientReadTimeout W) in *.
  set (d := maxWaitTime W) in *.
  rewrite Z.quot_div_nonneg in Hle by lia.
  rewrite Z.quot_div_nonneg by lia.
  pose proof (Z.div_mod C 8 ltac:(lia)) as HC8.
  pose proof (Z.mod_pos_bound C 8 ltac:(lia)) as HC8b.
  pose proof (Z.div_mod d 16 ltac:(lia)) as Hd16.
  pose proof (Z.mod_pos_bound d 16 ltac:(lia)) as Hd16b.
  lia.
Qed.

(** X18. With a read timeout that is not negative, the number in the
    [wait] parameter is the wait time rounded down to whole seconds: it
    lies between 0 and 600 and never exceeds the wait time. *)
Theorem wait_whole_seconds :
  0 <= BlockingClientReadTimeout W <= Int64.max_int ->
  0 <= Float64.to_int (Seconds (maxWaitTime W)) <= 600
  /\ Float64.to_int (Seconds (maxWaitTime W)) * time.Second <= maxWaitTime W
  /\ maxWaitTime W < (Float64.to_int (Seconds (maxWaitTime W)) + 1) * time.Second.
Proof.
  intros HC.
  pose proof (maxWaitTime_bounds W HC) as Hb.
  change (10 * time.Minute) with 600000000000 in Hb.
  rewrite Seconds_whole
    by (change (1024 * time.Second) with 1024000000000; lia).
  change time.Second with 1000000000.
  rewrite Z.quot_div_nonneg by lia.
  pose proof (Z.div_mod (maxWaitTime W) 1000000000 ltac:(lia)) as Hdm.
  pose proof (Z.mod_pos_bound (maxWaitTime W) 1000000000 ltac:(lia)) as Hmod.
  lia.
Qed.

End ExecutorMore.

(** ** Runs for the further properties *)

(** X2, at a run. *)
Lemma getToken_environment_witness :
  getToken Runs.readable None
  = ([EvGetenv "CONSUL_HTTP_TOKEN_FILE"; EvReadFile "/etc/consul/token"], Ok "from-file").
Proof.
  assert (Hfile : "/etc/consul/token" <> "") by discriminate.
  exact (proj1 (getToken_environment Runs.readable)
               "/etc/consul/token" "from-file" eq_refl Hfile eq_refl).
Defined.

(** X4, at a run. *)
Lemma successful_build_witness :
  exists client dc,
    In (EvNewConsulWatcher client Runs.bare dc)
       (trace (newAPIConfig (Sample.plain "") Runs.bare "")).
Proof.
  destruct (successful_build (Sample.plain "") Runs.bare ""
              (Build_apiConfig Sample.F "," "dc1") eq_refl)
    as [token [ac [proxyAC [client [dc [_ [_ [_ [_ [_ [_ Htrace]]]]]]]]]]].
  exists client, dc. rewrite Htrace.
  apply in_or_app. right. apply in_or_app. right. apply in_or_app. right.
  left. reflexivity.
Defined.

(** X5, at a run. *)
Lemma token_reaches_auth_config_witness :
  In (@EvAuthNewConfig Sample.F "" None "tok" None)
     (trace (newAPIConfig (Sample.plain "")
               (Sample.sdc "" "" "dc1" "" "" (Some "tok") None) "")).
Proof.
  exact (proj1 (token_reaches_auth_config (Sample.plain "")
                  (Sample.sdc "" "" "dc1" "" "" (Some "tok") None) "" "tok"
                  eq_refl eq_refl)).
Defined.

(** X6, at a run. *)
Lemma build_errors_witness :
  BuildError Runs.deaf Runs.bare ""
    (Errorf "cannot query consul agent info: %w"
            [ArgError (External "connection refused")]).
Proof.
  exact (build_errors Runs.deaf Runs.bare "" _ eq_refl).
Defined.

(** X7, at a run. *)
Lemma build_call_order_witness :
  "http://localhost:8500" = normalizedServer Runs.bare.
Proof.
  assert (Hin : In (@EvNewClient Sample.F "http://localhost:8500" (None, "") tt tt)
                   (trace (newAPIConfig (Sample.plain "") Runs.bare ""))).
  { cbn. tauto. }
  exact (proj1 (proj1 (build_call_order (Sample.plain "") Runs.bare "")
                      "http://localhost:8500" (None, "") tt tt Hin)).
Defined.

(** X8, at a run. *)
Lemma client_address_has_scheme_witness :
  strings.Contains "http://localhost:8500" "://" = true.
Proof.
  assert (Hin : In (@EvNewClient Sample.F "http://localhost:8500" (None, "") tt tt)
                   (trace (newAPIConfig (Sample.plain "") Runs.bare ""))).
  { cbn. tauto. }
  exact (client_address_has_scheme (Sample.plain "") Runs.bare ""
           "http://localhost:8500" (None, "") tt tt Hin).
Defined.

(** X9, at a run: the address made for ["consul.internal:8500"] with the
    scheme ["https"], given back as the server of a descriptor with the
    scheme ["http"]. *)
Lemma normalization_idempotent_witness :
  In (@EvNewClient Sample.F "https://consul.internal:8500" (None, "") tt tt)
     (trace (newAPIConfig (Sample.plain "")
               (Sample.sdc "https://consul.internal:8500" "http" "dc1" "" "" None None) "")).
Proof.
  assert (Hin : In (@EvNewClient Sample.F "https://consul.internal:8500" (None, "") tt tt)
                   (trace (newAPIConfig (Sample.plain "")
                             (Sample.sdc "consul.internal:8500" "https" "dc1" "" "" None None)
                             ""))).
  { cbn. tauto. }
  assert (Hin' : In (@EvNewClient Sample.F
                       (normalizedServer
                          (Sample.sdc "https://consul.internal:8500" "http" "dc1" "" ""
                                      None None))
                       (None, "") tt tt)
                    (trace (newAPIConfig (Sample.plain "")
                              (Sample.sdc "https://consul.internal:8500" "http" "dc1" "" ""
                                          None None) ""))).
  { cbn. tauto. }
  rewrite <- (normalization_idempotent (Sample.plain "") (Sample.plain "")
                (Sample.sdc "consul.internal:8500" "https" "dc1" "" "" None None)
                (Sample.sdc "https://consul.internal:8500" "http" "dc1" "" "" None None)
                "" "" "https://consul.internal:8500"
                (normalizedServer
                   (Sample.sdc "https://consul.internal:8500" "http" "dc1" "" "" None None))
                (None, "") tt tt (None, "") tt tt Hin eq_refl Hin').
  exact Hin'.
Defined.

(** X10, at a run. *)
Lemma watcher_arguments_witness :
  value (getDatacenter (Sample.plain "") "http://localhost:8500" (Datacenter Runs.bare))
  = Ok "dc1".
Proof.
  assert (Hin : In (@EvNewConsulWatcher Sample.F "http://localhost:8500" Runs.bare "dc1")
                   (trace (newAPIConfig (Sample.plain "") Runs.bare ""))).
  { cbn. tauto. }
  exact (proj1 (proj2 (watcher_arguments (Sample.plain "") Runs.bare ""
                         "http://localhost:8500" Runs.bare "dc1" Hin))).
Defined.

(** X11, at a run. *)
Lemma index_stays_valid_witness :
  0 <= snd (fst (value (getBlockingAPIResponse (Sample.plain "12") "consul"
                          Runs.services 7)))
    <= Int64.max_int.
Proof.
  assert (Hi : 0 <= 7 <= Int64.max_int) by (vm_compute; split; discriminate).
  exact (index_stays_valid (Sample.plain "12") "consul" Runs.services 7 Hi).
Defined.

(** X12, at a run. *)
Lemma index_monotone_or_reset_witness :
  snd (fst (value (getBlockingAPIResponse (Sample.plain "6") "consul" Runs.services 7))) = 0
  \/ snd (fst (value (getBlockingAPIResponse (Sample.plain "6") "consul" Runs.services 7)))
     = 1
  \/ 7 <= snd (fst (value (getBlockingAPIResponse (Sample.plain "6") "consul"
                             Runs.services 7))).
Proof.
  exact (index_monotone_or_reset (Sample.plain "6") "consul" Runs.services 7
           [("X-Consul-Index", "6")] (Ok "[]") eq_refl).
Defined.

(** X13, at a run. *)
Lemma index_echo_witness :
  snd (fst (value (getBlockingAPIResponse (Sample.plain "7") "consul" Runs.services 7)))
  = Z.max 7 1.
Proof.
  assert (Hi : 0 <= 7 <= Int64.max_int) by (vm_compute; split; discriminate).
  exact (proj1 (index_echo (Sample.plain "7") "consul" Runs.services 7
                  [("X-Consul-Index", "7")] (Ok "[]") Hi eq_refl eq_refl)).
Defined.

(** X14, at a run. *)
Lemma request_failure_witness :
  fst (fst (value (getBlockingAPIResponse Runs.failing "consul" Runs.services 7))) = "".
Proof.
  exact (proj1 (request_failure Runs.failing "consul" Runs.services 7 []
                  (External "timeout") eq_refl)).
Defined.

(** X16, at a run. *)
Lemma two_polls_converge_witness :
  snd (fst (value (getBlockingAPIResponse (Sample.plain "12") "consul" Runs.services
                     (snd (fst (value (getBlockingAPIResponse (Sample.plain "12") "consul"
                                         Runs.services 20)))))))
  = 12.
Proof.
  assert (Hn : 1 <= 12) by (vm_compute; discriminate).
  exact (two_polls_converge (Sample.plain "12") "consul" Runs.services 20 12
           [("X-Consul-Index", "12")] [("X-Consul-Index", "12")] (Ok "[]") (Ok "[]")
           Hn eq_refl eq_refl eq_refl eq_refl).
Defined.

(** X17, at a run. *)
Lemma wait_time_headroom_witness :
  maxWaitTime (Sample.plain "") + Z.quot (maxWaitTime (Sample.plain "")) 16
  <= BlockingClientReadTimeout (Sample.plain "").
Proof.
  assert (HC : 0 <= BlockingClientReadTimeout (Sample.plain "") <= Int64.max_int)
    by (vm_compute; split; discriminate).
  exact (proj2 (wait_time_headroom (Sample.plain "") HC)).
Defined.

(** X18, at a run. *)
Lemma wait_whole_seconds_witness :
  0 <= Float64.to_int (Seconds (maxWaitTime (Sample.plain ""))) <= 600.
Proof.
  assert (HC : 0 <= BlockingClientReadTimeout (Sample.plain "") <= Int64.max_int)
    by (vm_compute; split; discriminate).
  exact (proj1 (wait_whole_seconds (Sample.plain "") HC)).
Defined.
